(** * Steam games recommender: the text-to-ranking pipeline

    A shallow embedding of [backend/recommender]: [preprocess.py]
    ([clean_text]), [vectorizer.py] ([transform_text]), [similarity.py]
    ([calculate_similarity_matrix], [find_top_matches],
    [get_similarity_scores]) and [recommend.py]
    ([GameRecommender.recommend]).

    Conventions.
    - A Python [str] is a [string]; a character is its code point, for the
      code points below 256.
    - A [float64] score is idealised as a rational ([Q]): rounding is not
      modelled, order and products are.
    - The library objects the code calls into (NLTK's stopword set and
      lemmatizer, NumPy's [sqrt] and [argsort], the fitted scikit-learn
      vectorizer) are interfaces; what is assumed of them is stated where it
      is used. *)

From stdpp Require Import base list strings gmap sorting.
From Stdlib Require Import Ascii QArith.

Local Close Scope Q_scope.
Local Open Scope string_scope.
Local Open Scope list_scope.

(** ** Python values and built-ins *)

(** The values [clean_text] may be handed: pandas gives it [float('nan')]
    for a missing review, a JSON body may carry anything. *)
Inductive PyVal : Type :=
| PyNone
| PyBool (b : bool)
| PyInt (z : Z)
| PyFloat (q : Q)
| PyNaN
| PyStr (s : string).

(** [isinstance(v, str)] *)
Definition isinstance_str (v : PyVal) : bool :=
  match v with PyStr _ => true | _ => false end.

(** Exceptions the pipeline can raise, and results of fallible calls. *)
Inductive exn : Type := ValueError | IndexError.

Inductive result (A : Type) : Type :=
| Ok (a : A)
| Raise (e : exn).
Arguments Ok {A} a.
Arguments Raise {A} e.

Definition result_bind {A B} (f : A → result B) (m : result A) : result B :=
  match m with Ok a => f a | Raise e => Raise e end.

#[export] Instance result_ret : MRet result := @Ok.
#[export] Instance result_mbind : MBind result := @result_bind.

(** [[f(x) for x in l]] where [f] may raise: the first failure aborts. *)
Fixpoint traverse {A B} (f : A → result B) (l : list A) : result (list B) :=
  match l with
  | [] => Ok []
  | x :: l' => y ← f x; ys ← traverse f l'; Ok (y :: ys)
  end.

Module Py.

Definition code (c : ascii) : N := N_of_ascii c.

Definition in_range (lo hi : N) (c : ascii) : bool :=
  (lo <=? code c)%N && (code c <=? hi)%N.

(** [str.isspace] on one character, which is also what [\s] matches in a
    [str] pattern and what [str.split()] and [str.strip()] cut at:
    TAB..CR, FS..US, SPACE, NEL and NBSP. *)
Definition isspace (c : ascii) : bool :=
  in_range 9 13 c || in_range 28 32 c
  || (code c =? 133)%N || (code c =? 160)%N.

(** [str.lower] on one character: A..Z and the Latin-1 capitals
    (all of 192..222 but the multiplication sign 215) move up by 32. *)
Definition lower_char (c : ascii) : ascii :=
  if in_range 65 90 c
     || (in_range 192 222 c && negb (code c =? 215)%N)
  then ascii_of_N (code c + 32)
  else c.

(** [s.lower()] *)
Fixpoint lower (s : string) : string :=
  match s with
  | EmptyString => EmptyString
  | String c s' => String (lower_char c) (lower s')
  end.

(** [not s] for a [str] *)
Definition is_empty (s : string) : bool :=
  match s with EmptyString => true | _ => false end.

(** The character class [[a-z\s]]. *)
Definition class_az_space (c : ascii) : bool :=
  in_range 97 122 c || isspace c.

(** [re.sub('[^...]', '', s)] for a negated character class: every
    character outside the class is deleted. *)
Fixpoint re_sub_delete_outside (class : ascii → bool) (s : string) : string :=
  match s with
  | EmptyString => EmptyString
  | String c s' =>
      if class c then String c (re_sub_delete_outside class s')
      else re_sub_delete_outside class s'
  end.

(** A finished word is kept only when it is not empty. *)
Definition emit (w : string) (ws : list string) : list string :=
  if is_empty w then ws else w :: ws.

(** One pass of [str.split()] from the right: the word the scan is in
    the middle of, and the words after it. *)
Fixpoint split_scan (s : string) : string * list string :=
  match s with
  | EmptyString => (EmptyString, [])
  | String c s' =>
      let '(w, ws) := split_scan s' in
      if isspace c then (EmptyString, emit w ws) else (String c w, ws)
  end.

(** [s.split()]: the maximal runs of non-whitespace characters. *)
Definition split (s : string) : list string :=
  let '(w, ws) := split_scan s in emit w ws.

(** [sep.join(l)] *)
Fixpoint join (sep : string) (l : list string) : string :=
  match l with
  | [] => EmptyString
  | [w] => w
  | w :: l' => w +:+ sep +:+ join sep l'
  end.

(** [s.lstrip()] *)
Fixpoint lstrip (s : string) : string :=
  match s with
  | EmptyString => EmptyString
  | String c s' => if isspace c then lstrip s' else s
  end.

(** [s.rstrip()] *)
Fixpoint rstrip (s : string) : string :=
  match s with
  | EmptyString => EmptyString
  | String c s' =>
      let r := rstrip s' in
      if isspace c && is_empty r then EmptyString else String c r
  end.

(** [s.strip()] *)
Definition strip (s : string) : string := rstrip (lstrip s).

(** A string of whitespace only, the empty one included. *)
Fixpoint whitespace_only (s : string) : bool :=
  match s with
  | EmptyString => true
  | String c s' => isspace c && whitespace_only s'
  end.

(** Membership in [string.punctuation]. *)
Definition is_punctuation (c : ascii) : bool :=
  in_range 33 47 c || in_range 58 64 c || in_range 91 96 c
  || in_range 123 126 c.

(** [l[:stop]] for an integer [stop]: a negative [stop] counts from the
    end, and the bounds are clipped to the list. *)
Definition slice_to {A} (stop : Z) (l : list A) : list A :=
  if (stop <? 0)%Z then take (length l - Z.to_nat (- stop)) l
  else take (Z.to_nat stop) l.

(** [l[i]] for an index that is not negative. *)
Definition getitem {A} (l : list A) (i : nat) : result A :=
  match l !! i with Some x => Ok x | None => Raise IndexError end.

End Py.

(** ** The words of the specification *)

(** What the specification of the Text Normalizer speaks of, written down
    without the model of the Python built-ins above: the letters by their
    alphabet, the whitespace class by its members, the words of a text by
    one pass from the left. *)
Module Words.

Definition lowercase_letters : list ascii :=
  String.list_ascii_of_string "abcdefghijklmnopqrstuvwxyz".

Definition capital_letters : list ascii :=
  String.list_ascii_of_string "ABCDEFGHIJKLMNOPQRSTUVWXYZ".

(** The whitespace class: TAB, LF, VT, FF, CR, FS, GS, RS, US, SPACE, NEL
    and NBSP. *)
Definition whitespace_characters : list ascii :=
  ascii_of_nat <$> [9; 10; 11; 12; 13; 28; 29; 30; 31; 32; 133; 160].

(** The character at the place of [c] in [to], when [c] is in [from]. *)
Fixpoint translate (from to : list ascii) (c : ascii) : ascii :=
  match from, to with
  | f :: from', t :: to' =>
      if bool_decide (c = f) then t else translate from' to' c
  | _, _ => c
  end.

(** A capital letter becomes its lowercase letter. *)
Definition lowercase (c : ascii) : ascii :=
  translate capital_letters lowercase_letters c.

Definition is_whitespace (c : ascii) : bool :=
  bool_decide (c ∈ whitespace_characters).

(** The lowercase-letter and whitespace class. *)
Definition kept (c : ascii) : bool :=
  bool_decide (c ∈ lowercase_letters) || is_whitespace c.

(** The word read so far, if there is one. *)
Definition flush (current : list ascii) : list string :=
  match current with
  | [] => []
  | _ => [String.string_of_list_ascii current]
  end.

(** Splitting on whitespace, from the left: [current] is the word the
    scan is in. *)
Fixpoint words_from (current text : list ascii) : list string :=
  match text with
  | [] => flush current
  | c :: text' =>
      if is_whitespace c then flush current ++ words_from [] text'
      else words_from (current ++ [c]) text'
  end.

Definition words (text : list ascii) : list string := words_from [] text.

End Words.

(** ** preprocess.py *)

(** NLTK, as [preprocess.py] initialises it: the English stopword set and
    the WordNet lemmatizer. *)
Class Nltk : Type := {
  stop_words : gset string;
  lemmatize : string → string
}.

Section Preprocess.
Context `{Nltk}.

(** The loop of step 4: a word that is not a stopword is lemmatized and
    appended. *)
Definition clean_step (cleaned_words : list string) (word : string)
  : list string :=
  if bool_decide (word ∈ stop_words) then cleaned_words
  else cleaned_words ++ [lemmatize word].

Definition clean_text (text : PyVal) : string :=
  match text with
  | PyStr s =>
      if Py.is_empty s then ""
      else
        let text := Py.lower s in
        let text := Py.re_sub_delete_outside Py.class_az_space text in
        let words := Py.split text in
        let cleaned_words := foldl clean_step [] words in
        Py.join " " cleaned_words
  | _ => ""
  end.

(** The Text Normalizer as the specification words it, step by step, in
    the specification's own words: the characters are lowercased, those
    outside the lowercase-letter and whitespace class go, the text is split
    on whitespace, the stopwords are dropped, what is left is lemmatized and
    joined with single spaces ([String.concat] of the Standard Library). *)
Definition normalizer_spec (s : string) : string :=
  let lowered := Words.lowercase <$> String.list_ascii_of_string s in
  let stripped := List.filter Words.kept lowered in
  let tokens := Words.words stripped in
  let survivors := filter (λ w, w ∉ stop_words) tokens in
  String.concat " " (lemmatize <$> survivors).

(** A whitespace-separated token once lowercased and rid of everything
    but letters. *)
Definition bare (token : string) : string :=
  Py.re_sub_delete_outside Py.class_az_space (Py.lower token).

(** A token that carries no word, or carries a stopword. *)
Definition stopword_or_punctuation (token : string) : bool :=
  Py.is_empty (bare token) || bool_decide (bare token ∈ stop_words).

(** A string put together from stopwords and punctuation characters, and
    nothing else. *)
Inductive only_stopwords_and_punctuation : string → Prop :=
| osp_end : only_stopwords_and_punctuation ""
| osp_punctuation c s :
    Py.is_punctuation c = true →
    only_stopwords_and_punctuation s →
    only_stopwords_and_punctuation (String c s)
| osp_stopword w s :
    w ∈ stop_words →
    only_stopwords_and_punctuation s →
    only_stopwords_and_punctuation (w +:+ s).

End Preprocess.

(** ** vectorizer.py *)

(** A fitted [TfidfVectorizer], seen through the one method the pipeline
    calls: the row of weights it gives a document. A term that is not in the
    fitted vocabulary contributes nothing, so a document without any known
    term gets the all-zero row. *)
Record TfidfVectorizer : Type := {
  tfidf_row : string → list Q
}.

(** [vectorizer.transform(raw_documents)]: one row per document. *)
Definition vectorizer_transform (vectorizer : TfidfVectorizer)
    (raw_documents : list string) : list (list Q) :=
  tfidf_row vectorizer <$> raw_documents.

Definition transform_text (vectorizer : TfidfVectorizer) (text : string)
  : list (list Q) :=
  vectorizer_transform vectorizer [text].

(** ** similarity.py *)

(** NumPy, as scikit-learn and [similarity.py] use it. *)
Class Numpy : Type := {
  np_sqrt : Q → Q;
  np_argsort : list Q → list nat
}.

(** [a[i]] read as a score; an index outside [a] reads as 0. *)
Definition score_at (a : list Q) (i : nat) : Q := default 0%Q (a !! i).

(** The score at [i] is at least the score at [j]. *)
Definition score_ge (a : list Q) (i j : nat) : Prop :=
  (score_at a j <= score_at a i)%Q.

(** What [np.argsort(a)] promises for an array without NaN: the indices of
    [a], each once, in an order along which the values do not decrease. How
    equal values are ordered is left open (the default sort kind is not
    stable). *)
Definition argsort_spec `{Numpy} : Prop :=
  ∀ a : list Q,
    np_argsort a ≡ₚ seq 0 (length a)
    ∧ Sorted (λ i j, (score_at a i <= score_at a j)%Q) (np_argsort a).

(** A row whose entries are all zero. *)
Definition all_zero (u : list Q) : bool := forallb (λ x, Qeq_bool x 0) u.

Section Similarity.
Context `{Numpy}.

Definition dot (u v : list Q) : Q :=
  foldr Qplus 0%Q (zip_with Qmult u v).

(** [sklearn.preprocessing.normalize] on one sparse row: a row of norm
    zero is left as it is, any other is divided by its Euclidean norm. *)
Definition normalize_row (u : list Q) : list Q :=
  let s := dot u u in
  if Qeq_bool s 0 then u else (λ x, x / np_sqrt s)%Q <$> u.

Definition same_width (d : nat) (X : list (list Q)) : bool :=
  forallb (λ r, (length r =? d)%nat) X.

(** [check_pairwise_arrays]: both arguments need a sample and a feature,
    and the same number of features. *)
Definition check_pairwise_arrays (X Y : list (list Q)) : result unit :=
  match X, Y with
  | x :: _, _ :: _ =>
      if (0 <? length x)%nat && same_width (length x) X
         && same_width (length x) Y
      then Ok ()
      else Raise ValueError
  | _, _ => Raise ValueError
  end.

(** The cosine of one row with every row of [Y]. *)
Definition cosine_row (x : list Q) (Y : list (list Q)) : list Q :=
  (λ y, dot (normalize_row x) (normalize_row y)) <$> Y.

(** [sklearn.metrics.pairwise.cosine_similarity(X, Y)]: the matrix of dot
    products of the normalised rows. *)
Definition cosine_similarity (X Y : list (list Q)) : result (list (list Q)) :=
  _ ← check_pairwise_arrays X Y;
  Ok ((λ x, cosine_row x Y) <$> X).

Definition calculate_similarity (vector1 vector2 : list (list Q)) : result Q :=
  K ← cosine_similarity vector1 vector2;
  row ← Py.getitem K 0;
  Py.getitem row 0.

Definition calculate_similarity_matrix (user_vector all_game_vectors : list (list Q))
  : result (list Q) :=
  K ← cosine_similarity user_vector all_game_vectors;
  Py.getitem K 0.

(** [np.argsort(similarities)[::-1][:top_n]] *)
Definition find_top_matches (similarities : list Q) (top_n : Z) : list nat :=
  Py.slice_to top_n (reverse (np_argsort similarities)).

(** [[similarities[i] for i in indices]] *)
Definition get_similarity_scores (similarities : list Q) (indices : list nat)
  : result (list Q) :=
  traverse (Py.getitem similarities) indices.

(** Insertion of the index [i] in front of the first index it may go
    before. *)
Fixpoint insert_index (before : nat → nat → bool) (i : nat) (l : list nat)
  : list nat :=
  match l with
  | [] => [i]
  | j :: l' => if before i j then i :: l else j :: insert_index before i l'
  end.

(** Top-K selection as the specification words it: the indices by
    descending score, equal scores in corpus order, cut to K once K is
    clamped to the range from 1 to the corpus size. *)
Definition top_k_spec (similarities : list Q) (K : Z) : list nat :=
  let n := length similarities in
  let descending :=
    foldr (insert_index
             (λ i j, Qle_bool (score_at similarities j) (score_at similarities i)))
          [] (seq 0 n) in
  take (Z.to_nat (Z.max 1 (Z.min K (Z.of_nat n)))) descending.

End Similarity.

(** ** recommend.py *)

(** One entry of the list [recommend] returns. *)
Record Recommendation : Type := {
  game_id : Z;
  game_name : string;
  similarity_score : Q;
  match_percentage : Q
}.

Record GameRecommender : Type := {
  vectorizer : TfidfVectorizer;
  game_vectors : list (list Q);
  game_names : list string;
  game_ids : list Z
}.

Section Recommend.
Context `{Nltk} `{Numpy}.

(** The body of the loop of step 5, for one pair of [zip]. *)
Definition format_result (self : GameRecommender) (entry : nat * Q)
  : result Recommendation :=
  let '(idx, score) := entry in
  gid ← Py.getitem (game_ids self) idx;
  gname ← Py.getitem (game_names self) idx;
  Ok {| game_id := gid;
        game_name := gname;
        similarity_score := score;
        match_percentage := (score * 100)%Q |}.

Definition recommend (self : GameRecommender) (user_review : PyVal) (top_n : Z)
  : result (list Recommendation) :=
  let cleaned_review := clean_text user_review in
  if Py.is_empty (Py.strip cleaned_review) then Ok []
  else
    let user_vector := transform_text (vectorizer self) cleaned_review in
    similarities ←
      calculate_similarity_matrix user_vector (game_vectors self);
    let top_indices := find_top_matches similarities top_n in
    top_scores ← get_similarity_scores similarities top_indices;
    traverse (format_result self) (zip top_indices top_scores).

Definition get_total_games (self : GameRecommender) : nat :=
  length (game_names self).

(** The query row the vectorizer gives a text once cleaned. *)
Definition query_row (self : GameRecommender) (user_review : PyVal) : list Q :=
  tfidf_row (vectorizer self) (clean_text user_review).

(** The score of every game for a query. *)
Definition similarities (self : GameRecommender) (user_review : PyVal) : list Q :=
  cosine_row (query_row self user_review) (game_vectors self).

(** The artifacts fit together, and fit the query: the metadata lists
    have one entry per row of the matrix, the matrix has a row, and its
    rows and the query row have the same, positive, number of features. *)
Definition well_formed (self : GameRecommender) (user_review : PyVal) : bool :=
  let d := length (query_row self user_review) in
  (0 <? length (game_vectors self))%nat
  && (0 <? d)%nat
  && same_width d (game_vectors self)
  && (length (game_names self) =? length (game_vectors self))%nat
  && (length (game_ids self) =? length (game_vectors self))%nat.

(** A record as the loop builds it for the game at [idx]. *)
Definition record_of (self : GameRecommender) (similarities : list Q)
    (idx : nat) : Recommendation :=
  {| game_id := default 0%Z (game_ids self !! idx);
     game_name := default "" (game_names self !! idx);
     similarity_score := score_at similarities idx;
     match_percentage := (score_at similarities idx * 100)%Q |}.

End Recommend.

(** ** The pipeline with the state of the libraries in view *)

(** Four calls of [recommend] leave the repository: the lemmatizer, the
    vectorizer's [transform], [cosine_similarity] and [np.argsort]. Such a
    call may read and change state its arguments do not show: WordNet's
    lazily loaded corpus and its caches, the seed of a random generator. A
    [world] stands for all of that state: a call takes the world it finds,
    and returns its result with the world it leaves. The stopword set is
    built once, when [preprocess.py] is imported, and only read
    afterwards; the model is only read as well. *)
Record Libraries (world : Type) : Type := {
  lib_stop_words : gset string;
  lib_lemmatize : string → world → string * world;
  lib_transform :
    TfidfVectorizer → list string → world → list (list Q) * world;
  lib_cosine_similarity :
    list (list Q) → list (list Q) → world → result (list (list Q)) * world;
  lib_argsort : list Q → world → list nat * world
}.
Arguments lib_stop_words {world} _.
Arguments lib_lemmatize {world} _ _ _.
Arguments lib_transform {world} _ _ _ _.
Arguments lib_cosine_similarity {world} _ _ _ _.
Arguments lib_argsort {world} _ _ _.

Section Worlds.
Context {world : Type} (L : Libraries world).

(** The loop of [clean_text], the world going from one call of the
    lemmatizer to the next. *)
Fixpoint clean_words_in (words cleaned_words : list string) (w : world)
  : list string * world :=
  match words with
  | [] => (cleaned_words, w)
  | word :: words' =>
      if bool_decide (word ∈ lib_stop_words L)
      then clean_words_in words' cleaned_words w
      else
        let '(lemma, w') := lib_lemmatize L word w in
        clean_words_in words' (cleaned_words ++ [lemma]) w'
  end.

Definition clean_text_in (text : PyVal) (w : world) : string * world :=
  match text with
  | PyStr s =>
      if Py.is_empty s then ("", w)
      else
        let text := Py.lower s in
        let text := Py.re_sub_delete_outside Py.class_az_space text in
        let words := Py.split text in
        let '(cleaned_words, w') := clean_words_in words [] w in
        (Py.join " " cleaned_words, w')
  | _ => ("", w)
  end.

Definition transform_text_in (vectorizer : TfidfVectorizer) (text : string)
    (w : world) : list (list Q) * world :=
  lib_transform L vectorizer [text] w.

Definition calculate_similarity_matrix_in
    (user_vector all_game_vectors : list (list Q)) (w : world)
  : result (list Q) * world :=
  let '(K, w') := lib_cosine_similarity L user_vector all_game_vectors w in
  (K ← K; Py.getitem K 0, w').

Definition find_top_matches_in (similarities : list Q) (top_n : Z) (w : world)
  : list nat * world :=
  let '(order, w') := lib_argsort L similarities w in
  (Py.slice_to top_n (reverse order), w').

(** [recommend], call by call: every call runs in the world the one
    before it left. *)
Definition recommend_in (self : GameRecommender) (user_review : PyVal)
    (top_n : Z) (w : world) : result (list Recommendation) * world :=
  let '(cleaned_review, w1) := clean_text_in user_review w in
  if Py.is_empty (Py.strip cleaned_review) then (Ok [], w1)
  else
    let '(user_vector, w2) :=
      transform_text_in (vectorizer self) cleaned_review w1 in
    let '(similarities, w3) :=
      calculate_similarity_matrix_in user_vector (game_vectors self) w2 in
    match similarities with
    | Raise e => (Raise e, w3)
    | Ok similarities =>
        let '(top_indices, w4) := find_top_matches_in similarities top_n w3 in
        (top_scores ← get_similarity_scores similarities top_indices;
         traverse (format_result self) (zip top_indices top_scores), w4)
    end.

(** Two calls in a row on one model, with the same text and [top_n]: the
    second runs in the world the first left. *)
Definition recommend_twice (self : GameRecommender) (user_review : PyVal)
    (top_n : Z) (w : world)
  : result (list Recommendation) * result (list Recommendation) :=
  let '(first, w') := recommend_in self user_review top_n w in
  let '(second, _) := recommend_in self user_review top_n w' in
  (first, second).

(** What the libraries are trusted for: whatever state a call finds, and
    whatever it does to it, the value it returns is fixed by its
    arguments. *)
Definition results_fixed : Prop :=
  (∀ word w w', (lib_lemmatize L word w).1 = (lib_lemmatize L word w').1)
  ∧ (∀ vectorizer docs w w',
       (lib_transform L vectorizer docs w).1
       = (lib_transform L vectorizer docs w').1)
  ∧ (∀ X Y w w',
       (lib_cosine_similarity L X Y w).1 = (lib_cosine_similarity L X Y w').1)
  ∧ (∀ a w w', (lib_argsort L a w).1 = (lib_argsort L a w').1).

End Worlds.

(** The libraries of the functional reading above: no call looks at the
    world, or touches it. *)
Definition stateless `{Nltk} `{Numpy} (world : Type) : Libraries world := {|
  lib_stop_words := stop_words;
  lib_lemmatize word w := (lemmatize word, w);
  lib_transform vectorizer docs w := (vectorizer_transform vectorizer docs, w);
  lib_cosine_similarity X Y w := (cosine_similarity X Y, w);
  lib_argsort a w := (np_argsort a, w)
|}.

(** ** A small model to run the pipeline on *)

Module Sample.

(** Some of the words of NLTK's English stopword list. *)
Definition english_stopwords : list string :=
  ["i"; "me"; "my"; "we"; "you"; "it"; "its"; "this"; "that"; "is"; "are";
   "was"; "be"; "have"; "do"; "a"; "an"; "the"; "and"; "but"; "if"; "or";
   "of"; "at"; "by"; "for"; "with"; "to"; "from"; "in"; "on"; "so"; "not";
   "don"; "don't"; "s"; "t"].

(** WordNet's noun lemmas for the few plurals the examples use; a word
    WordNet has no lemma for is returned as it is. *)
Definition wordnet_lemma (word : string) : string :=
  if String.eqb word "games" then "game"
  else if String.eqb word "shooters" then "shooter"
  else if String.eqb word "puzzles" then "puzzle"
  else word.

#[export] Instance nltk : Nltk := {|
  stop_words := list_to_set english_stopwords;
  lemmatize := wordnet_lemma
|}.

(** A square root that is exact on squares of rationals. *)
Definition sqrt_exact (q : Q) : Q :=
  let r := Qred q in (Z.sqrt (Qnum r) # Pos.sqrt (Qden r))%Q.

(** The index [i] may go before [j] when its value is not above. *)
Definition not_above (a : list Q) (i j : nat) : bool :=
  Qle_bool (score_at a i) (score_at a j).

(** A stable argsort: insertion sort of the indices by their values,
    equal values staying in index order, which is what
    [np.argsort(a, kind='stable')] computes. *)
Definition argsort_stable (a : list Q) : list nat :=
  foldr (insert_index (not_above a)) [] (seq 0 (length a)).

#[export] Instance numpy : Numpy := {|
  np_sqrt := sqrt_exact;
  np_argsort := argsort_stable
|}.

(** The fitted vocabulary, one term per column. *)
Definition vocabulary : list string := ["action"; "shooter"; "puzzle"; "world"].

(** A stand-in for the fitted vectorizer: the count of every vocabulary
    term among the words of a cleaned text, all idf weights being one. The
    rows are not scaled to norm one, which [cosine_similarity] does to its
    arguments anyway; a text without a known term gets the all-zero row. *)
Definition count_row (text : string) : list Q :=
  (λ term, inject_Z (Z.of_nat (length (filter (λ w, w = term) (Py.split text)))))
    <$> vocabulary.

Definition games : GameRecommender := {|
  vectorizer := {| tfidf_row := count_row |};
  game_vectors := [[3 # 5; 4 # 5; 0; 0]; [0; 0; 1; 0]; [0; 0; 0; 1]]%Q;
  game_names := ["Doom"; "Tetris"; "Minecraft"];
  game_ids := [379720; 1100; 1672970]%Z
|}.

End Sample.

(** ** More built-ins *)

Module PyMore.

(** No character of the string is whitespace. *)
Fixpoint no_space (s : string) : bool :=
  match s with
  | EmptyString => true
  | String c s' => negb (Py.isspace c) && no_space s'
  end.

(** A word as [str.split()] returns them: not empty, no whitespace. *)
Definition is_word (w : string) : bool :=
  negb (Py.is_empty w) && no_space w.

End PyMore.

(** ** More of similarity.py and recommend.py *)

(** Two results of [calculate_similarity] that agree: the same score, or
    the same exception. *)
Definition same_score (r1 r2 : result Q) : Prop :=
  match r1, r2 with
  | Ok a, Ok b => (a == b)%Q
  | Raise e1, Raise e2 => e1 = e2
  | _, _ => False
  end.

Module Listing.

(** One entry of the list [get_all_games] returns. *)
Record game : Type := {
  game_id : Z;
  game_name : string
}.

End Listing.

Definition get_all_games (self : GameRecommender) : list Listing.game :=
  (λ '(game_id, game_name),
     {| Listing.game_id := game_id; Listing.game_name := game_name |})
    <$> zip (game_ids self) (game_names self).

Section RecommendMore.
Context `{Nltk} `{Numpy}.

(** What [check_pairwise_arrays] asks of the matrix and of the query row:
    a game, a feature, and rows of the width of the query row. *)
Definition shapes_fit (self : GameRecommender) (user_review : PyVal) : bool :=
  let d := length (query_row self user_review) in
  (0 <? length (game_vectors self))%nat
  && (0 <? d)%nat
  && same_width d (game_vectors self).

(** The games [recommend] picks, as rows of the matrix. *)
Definition top_indices (self : GameRecommender) (user_review : PyVal) (top_n : Z)
  : list nat :=
  find_top_matches (similarities self user_review) top_n.

(** Both metadata lists have an entry at every index of [indices]. *)
Definition metadata_covers (self : GameRecommender) (indices : list nat) : bool :=
  forallb (λ i, (i <? length (game_ids self))%nat
                && (i <? length (game_names self))%nat) indices.

End RecommendMore.

(** ** config.py *)

Definition DEFAULT_TOP_N : Z := 5.
Definition MAX_TOP_N : Z := 20.

(** ** app.py *)

Module PySlice.

(** A slice bound brought into [0, len]: a negative bound counts from the
    end. *)
Definition clip (len : nat) (i : Z) : nat :=
  if (i <? 0)%Z then Z.to_nat (Z.max 0 (Z.of_nat len + i))
  else Z.to_nat i `min` len.

(** [l[start:stop]] for integer bounds. *)
Definition slice {A} (l : list A) (start stop : Z) : list A :=
  let s := clip (length l) start in
  let e := clip (length l) stop in
  take (e - s) (drop s l).

End PySlice.

Module App.

(** A value held by the JSON object of a request: a scalar, or an array or
    object, of which the handler only sees that it is neither a string nor
    an integer. *)
Inductive json_value : Type :=
| JScalar (v : PyVal)
| JNested.

(** [isinstance(v, int)] with the integer it stands for; [bool] is a
    subclass of [int]. *)
Definition as_int (v : json_value) : option Z :=
  match v with
  | JScalar (PyInt z) => Some z
  | JScalar (PyBool b) => Some (Z.b2z b)
  | _ => None
  end.

(** The two statements under [# Limit top_n]. *)
Definition limit_top_n (top_n : json_value) : Z :=
  let top_n :=
    match as_int top_n with
    | Some z => if (z <? 1)%Z then DEFAULT_TOP_N else z
    | None => DEFAULT_TOP_N
    end in
  if (MAX_TOP_N <? top_n)%Z then MAX_TOP_N else top_n.

(** The responses of [POST /api/recommend], one per [jsonify] call. *)
Inductive response : Type :=
| ModelNotLoaded
| MissingReview
| InvalidReview
| NoMatch (user_review : string)
| Recommendations (user_review : string) (total_recommendations : nat)
                  (recommendations : list Recommendation)
| ServerError (e : exn).

Definition status_code (r : response) : Z :=
  match r with
  | ModelNotLoaded => 503
  | MissingReview | InvalidReview => 400
  | NoMatch _ | Recommendations _ _ _ => 200
  | ServerError _ => 500
  end.

Section Handlers.
Context `{Nltk} `{Numpy}.

(** The handler of [POST /api/recommend], from the parsed body on: [data]
    is what [request.get_json()] returned, a JSON object or [None]. *)
Definition recommend (recommender : option GameRecommender)
    (data : option (gmap string json_value)) : response :=
  match recommender with
  | None => ModelNotLoaded
  | Some recommender =>
      match data with
      | None => MissingReview
      | Some data =>
          if bool_decide (size data = 0) then MissingReview
          else
            match data !! "review" with
            | None => MissingReview
            | Some user_review =>
                let top_n :=
                  default (JScalar (PyInt DEFAULT_TOP_N)) (data !! "top_n") in
                match user_review with
                | JScalar (PyStr review) =>
                    if (String.length (Py.strip review) =? 0)%nat
                    then InvalidReview
                    else
                      let top_n := limit_top_n top_n in
                      match recommend recommender (PyStr review) top_n with
                      | Raise e => ServerError e
                      | Ok [] => NoMatch review
                      | Ok recommendations =>
                          Recommendations review (length recommendations)
                                          recommendations
                      end
                | _ => InvalidReview
                end
            end
      end
  end.

End Handlers.

(** The body of a successful [GET /api/games]. *)
Record games_page : Type := {
  total_games : nat;
  page : Z;
  per_page : Z;
  games : list Listing.game
}.

(** The handler of [GET /api/games]; [page] and [per_page] are the query
    arguments when they are present and parse as integers. The result is
    [None] for the 503 of a model that is not loaded. *)
Definition get_games (recommender : option GameRecommender)
    (page_arg per_page_arg : option Z) : option games_page :=
  match recommender with
  | None => None
  | Some recommender =>
      let games := get_all_games recommender in
      let page := default 1%Z page_arg in
      let per_page := default 50%Z per_page_arg in
      let start := ((page - 1) * per_page)%Z in
      let end_ := (start + per_page)%Z in
      Some {| total_games := length games;
              page := page;
              per_page := per_page;
              games := PySlice.slice games start end_ |}
  end.

(** The games a request for one page gets ([[]] when the model is not
    loaded). *)
Definition page_games (recommender : option GameRecommender)
    (page_arg per_page_arg : option Z) : list Listing.game :=
  match get_games recommender page_arg per_page_arg with
  | Some answer => games answer
  | None => []
  end.

(** The review of a request, when it has one that is a string. *)
Definition review_of (data : option (gmap string json_value)) : option string :=
  match data with
  | Some data =>
      match data !! "review" with
      | Some (JScalar (PyStr review)) => Some review
      | _ => None
      end
  | None => None
  end.

(** The [top_n] of a request once limited, 5 standing in when the key is
    missing. *)
Definition top_n_of (data : option (gmap string json_value)) : Z :=
  match data with
  | Some data =>
      limit_top_n (default (JScalar (PyInt DEFAULT_TOP_N)) (data !! "top_n"))
  | None => DEFAULT_TOP_N
  end.

(** A request the handler lets through to the recommender: its review is a
    string with something else than whitespace in it. *)
Definition request_ok (data : option (gmap string json_value)) : bool :=
  match review_of data with
  | Some review => negb (Py.is_empty (Py.strip review))
  | None => false
  end.

End App.

(** ** profile.py *)

Section CleanedWords.
Context `{Nltk}.

(** The words [clean_text] keeps of a string, lemmatized, in order. *)
Definition cleaned_words (s : string) : list string :=
  lemmatize <$> filter (λ w, w ∉ stop_words) (Py.split (bare s)).

End CleanedWords.

Module Profile.

(** [genres] is a list or [None]; an empty list is as good as none. *)
Definition create_user_profile (preferences : string)
    (genres : option (list string)) : string :=
  match genres with
  | Some (genre :: more) =>
      let genre_text := Py.join " " (genre :: more) in
      preferences +:+ " " +:+ genre_text
  | _ => preferences
  end.

(** A recommendation once [get_top_recommendations] has added its two
    keys to it. *)
Record ranked : Type := {
  recommendation : Recommendation;
  rank : nat;
  recommendation_level : string
}.

Definition level_of (i : nat) : string :=
  if (i <=? 10)%nat then "Highly Recommended"
  else if (i <=? 50)%nat then "Recommended"
  else "Least Recommended".

(** The loop under [# Add ranking]: [enumerate(recommendations, 1)]. *)
Definition add_ranking (recommendations : list Recommendation) : list ranked :=
  imap (λ i rec, {| recommendation := rec;
                    rank := S i;
                    recommendation_level := level_of (S i) |})
       recommendations.

Section WithModel.
Context `{Nltk} `{Numpy}.

(** [get_top_recommendations], from the recommender it builds out of the
    files on. *)
Definition get_top_recommendations (recommender : GameRecommender)
    (user_profile : string) (top_n : Z) : result (list ranked) :=
  recommendations ← recommend recommender (PyStr user_profile) top_n;
  Ok (add_ranking recommendations).

End WithModel.

(** The three blocks [display_recommendations] prints: the top 10, ranks 11
    to 50, and, when there are more than 50 entries, ranks 51 to 100. *)
Definition display_recommendations (recommendations : list ranked)
  : list ranked * list ranked * list ranked :=
  (PySlice.slice recommendations 0 10,
   PySlice.slice recommendations 10 50,
   if (50 <? length recommendations)%nat
   then PySlice.slice recommendations 50 100 else []).

End Profile.

(** ** streamlit_app.py *)

Module Streamlit.

(** The three values the loop under [# Add categories] gives the key
    ['category']: the strings for ranks up to 10, up to 50, and beyond. *)
Inductive category : Type :=
| HighlyRecommended
| Recommended
| LeastRecommended.

#[export] Instance category_eq_dec : EqDecision category.
Proof. solve_decision. Defined.

(** A dictionary of the list [recommend] returned: the four keys it came
    with, and the two keys the loop adds, absent until then. *)
Record entry : Type := {
  fields : Recommendation;
  rank : option nat;
  category_of : option category
}.

(** A dictionary as [recommend] returns it. *)
Definition fresh (rec : Recommendation) : entry :=
  {| fields := rec; rank := None; category_of := None |}.

(** [==] on two of these dictionaries: the same keys with equal values,
    floats compared by value. *)
Definition dict_eqb (a b : entry) : bool :=
  (game_id (fields a) =? game_id (fields b))%Z
  && String.eqb (game_name (fields a)) (game_name (fields b))
  && Qeq_bool (similarity_score (fields a)) (similarity_score (fields b))
  && Qeq_bool (match_percentage (fields a)) (match_percentage (fields b))
  && bool_decide (rank a = rank b)
  && bool_decide (category_of a = category_of b).

(** [l.index(x)] counted from [start]: the position of the first element
    equal to [x]. *)
Fixpoint index_from (start : nat) (l : list entry) (x : entry) : result nat :=
  match l with
  | [] => Raise ValueError
  | y :: l' => if dict_eqb y x then Ok start else index_from (S start) l' x
  end.

Definition index (l : list entry) (x : entry) : result nat := index_from 0 l x.

Definition categorize (rank : nat) : category :=
  if (rank <=? 10)%nat then HighlyRecommended
  else if (rank <=? 50)%nat then Recommended
  else LeastRecommended.

(** One turn of the loop, on the element at position [p]: its rank is
    looked up with [index] in the list as it is by then, and the two keys
    are written into that element. *)
Definition add_category (recommendations : list entry) (p : nat)
  : result (list entry) :=
  match recommendations !! p with
  | None => Ok recommendations
  | Some rec =>
      i ← index recommendations rec;
      let rank := i + 1 in
      Ok (<[p := {| fields := fields rec;
                    rank := Some rank;
                    category_of := Some (categorize rank) |}]> recommendations)
  end.

(** [for rec in recommendations: ...], the list being changed in place on
    the way. *)
Fixpoint for_each (positions : list nat) (recommendations : list entry)
  : result (list entry) :=
  match positions with
  | [] => Ok recommendations
  | p :: positions' =>
      recommendations' ← add_category recommendations p;
      for_each positions' recommendations'
  end.

Definition add_categories (recommendations : list entry) : result (list entry) :=
  for_each (seq 0 (length recommendations)) recommendations.

(** The dictionary at position [i] once the loop has passed it. *)
Definition categorized (i : nat) (rec : Recommendation) : entry :=
  {| fields := rec;
     rank := Some (i + 1);
     category_of := Some (categorize (i + 1)) |}.

End Streamlit.

(** ** Libraries with state *)

Module Stateful.
Import Sample.

(** Libraries that count their calls: the world is the number of calls
    made so far, as a cache or a log would keep it; the results are those
    of the small model. *)
Definition counting : Libraries nat := {|
  lib_stop_words := stop_words;
  lib_lemmatize word calls := (lemmatize word, S calls);
  lib_transform vectorizer docs calls :=
    (vectorizer_transform vectorizer docs, S calls);
  lib_cosine_similarity X Y calls := (cosine_similarity X Y, S calls);
  lib_argsort a calls := (np_argsort a, S calls)
|}.

(** An argsort of its own right that puts equal values in the reverse of
    index order. *)
Definition argsort_ties_reversed (a : list Q) : list nat :=
  reverse (argsort_stable (Qopp <$> a)).

(** Libraries whose sort breaks ties by a coin: the world is the coin,
    and every call of the sort turns it over. *)
Definition tie_flipping : Libraries bool := {|
  lib_stop_words := stop_words;
  lib_lemmatize word coin := (lemmatize word, coin);
  lib_transform vectorizer docs coin :=
    (vectorizer_transform vectorizer docs, coin);
  lib_cosine_similarity X Y coin := (cosine_similarity X Y, coin);
  lib_argsort a (coin : bool) :=
    (if coin then argsort_ties_reversed a else argsort_stable a, negb coin)
|}.

End Stateful.

(** ** More models to run the pipeline on *)

Module Fixtures.

(** The sample model before any game was trained in. *)
Definition no_games : GameRecommender := {|
  vectorizer := vectorizer Sample.games;
  game_vectors := [];
  game_names := [];
  game_ids := []
|}.

(** The sample model with a metadata table that lost its last row. *)
Definition short_metadata : GameRecommender := {|
  vectorizer := vectorizer Sample.games;
  game_vectors := game_vectors Sample.games;
  game_names := ["Doom"; "Tetris"];
  game_ids := [379720; 1100]%Z
|}.

(** The body [{"review": "I love shooters!", "top_n": 50}]. *)
Definition greedy_request : gmap string App.json_value :=
  {[ "review" := App.JScalar (PyStr "I love shooters!");
     "top_n" := App.JScalar (PyInt 50) ]}.

End Fixtures.

(** * Properties *)

(** ** The built-ins on examples *)

Example lower_example : Py.lower "Fast-Paced SHOOTER 42" = "fast-paced shooter 42".
Proof. reflexivity. Qed.

Example re_sub_example :
  Py.re_sub_delete_outside Py.class_az_space "fast-paced shooter 42, ok!"
  = "fastpaced shooter  ok".
Proof. reflexivity. Qed.

Example split_example :
  Py.split (String (ascii_of_N 9) "  fast  paced " +:+ String (ascii_of_N 10) "shooter")
  = ["fast"; "paced"; "shooter"].
Proof. reflexivity. Qed.

Example join_example : Py.join " " ["fast"; "paced"; "shooter"] = "fast paced shooter".
Proof. reflexivity. Qed.

Example strip_example : Py.strip "  fast  paced " = "fast  paced".
Proof. reflexivity. Qed.

Example slice_to_examples :
  Py.slice_to 2 [10; 20; 30] = [10; 20]
  ∧ Py.slice_to 0 [10; 20; 30] = []
  ∧ Py.slice_to 7 [10; 20; 30] = [10; 20; 30]
  ∧ Py.slice_to (-1) [10; 20; 30] = [10; 20]
  ∧ Py.slice_to (-5) [10; 20; 30] = [].
Proof. repeat split. Qed.

(** ** Characters *)

Ltac by_cases_on_char c :=
  destruct c as [[] [] [] [] [] [] [] []]; vm_compute; intuition congruence.

Lemma isspace_lower_char c : Py.isspace (Py.lower_char c) = Py.isspace c.
Proof. by_cases_on_char c. Qed.

Lemma lower_char_space c : Py.isspace c = true → Py.lower_char c = c.
Proof. by_cases_on_char c. Qed.

Lemma class_az_space_space c : Py.isspace c = true → Py.class_az_space c = true.
Proof. unfold Py.class_az_space. intros ->. apply orb_true_r. Qed.

(** ** Strings *)

Lemma is_empty_true s : Py.is_empty s = true ↔ s = "".
Proof. destruct s; simpl; split; congruence. Qed.

Lemma emit_empty ws : Py.emit "" ws = ws.
Proof. reflexivity. Qed.

Lemma emit_nonempty w ws : Py.is_empty w = false → Py.emit w ws = w :: ws.
Proof. unfold Py.emit. by intros ->. Qed.

(** ** The built-ins against the words of the specification *)

Lemma isspace_is_whitespace c : Py.isspace c = Words.is_whitespace c.
Proof. by_cases_on_char c. Qed.

Lemma class_lowercase c :
  Py.class_az_space (Py.lower_char c) = Words.kept (Words.lowercase c).
Proof. by_cases_on_char c. Qed.

Lemma lower_char_lowercase c :
  Words.kept (Words.lowercase c) = true → Py.lower_char c = Words.lowercase c.
Proof. by_cases_on_char c. Qed.

(** Lowercasing with [str.lower] and deleting with [re.sub] leaves the
    characters the specification keeps, lowercased. *)
Lemma bare_letters s :
  bare s
  = String.string_of_list_ascii
      (List.filter Words.kept (Words.lowercase <$> String.list_ascii_of_string s)).
Proof.
  induction s as [|c s IH]; [done|].
  unfold bare in *. cbn [Py.lower Py.re_sub_delete_outside String.list_ascii_of_string].
  rewrite fmap_cons. cbn [List.filter]. rewrite class_lowercase.
  destruct (Words.kept (Words.lowercase c)) eqn:Hk; [|done].
  cbn [String.string_of_list_ascii]. by rewrite IH, (lower_char_lowercase c Hk).
Qed.

Lemma string_of_list_ascii_snoc l c s :
  String.string_of_list_ascii (l ++ [c]) +:+ s = String.string_of_list_ascii l +:+ String c s.
Proof.
  induction l as [|a l IH]; [done|].
  change (String a (String.string_of_list_ascii (l ++ [c]) +:+ s)
          = String a (String.string_of_list_ascii l +:+ String c s)).
  by rewrite IH.
Qed.

Lemma string_append_empty s : s +:+ "" = s.
Proof.
  induction s as [|c s IH]; [done|].
  change (String c (s +:+ "") = String c s). by rewrite IH.
Qed.

Lemma flush_emit current ws :
  Words.flush current ++ ws = Py.emit (String.string_of_list_ascii current) ws.
Proof. by destruct current. Qed.

Lemma words_from_split_scan current t :
  Words.words_from current (String.list_ascii_of_string t)
  = Py.emit (String.string_of_list_ascii current +:+ (Py.split_scan t).1)
            (Py.split_scan t).2.
Proof.
  revert current. induction t as [|c t IH]; intros current.
  - cbn [String.list_ascii_of_string Words.words_from Py.split_scan fst snd].
    rewrite <- (app_nil_r (Words.flush current)), flush_emit.
    by rewrite string_append_empty.
  - cbn [String.list_ascii_of_string Words.words_from Py.split_scan].
    rewrite <- isspace_is_whitespace.
    destruct (Py.split_scan t) as [w ws] eqn:Hscan. cbn [fst snd] in IH.
    destruct (Py.isspace c); cbn [fst snd].
    + rewrite (IH []), flush_emit. by rewrite string_append_empty.
    + by rewrite IH, string_of_list_ascii_snoc.
Qed.

(** The scan from the left finds the words [str.split()] returns. *)
Lemma words_split t : Words.words (String.list_ascii_of_string t) = Py.split t.
Proof.
  unfold Words.words, Py.split. rewrite words_from_split_scan.
  by destruct (Py.split_scan t).
Qed.

(** [String.concat] of the Standard Library joins as [str.join] does. *)
Lemma concat_join sep l : String.concat sep l = Py.join sep l.
Proof.
  induction l as [|w l IH]; [done|]. destruct l as [|w2 l]; [done|].
  change (w +:+ sep +:+ String.concat sep (w2 :: l)
          = w +:+ sep +:+ Py.join sep (w2 :: l)).
  by rewrite IH.
Qed.

(** ** preprocess.py *)

Section PreprocessFacts.
Context `{Nltk}.

(** The loop of [clean_text] is a filter followed by a map: it appends,
    in order, the lemma of every word that is not a stopword. *)
Lemma clean_loop words acc :
  foldl clean_step acc words
  = acc ++ (lemmatize <$> filter (λ w, w ∉ stop_words) words).
Proof.
  revert acc. induction words as [|w words IH]; intros acc; cbn [foldl].
  - by rewrite filter_nil, fmap_nil, app_nil_r.
  - rewrite IH. unfold clean_step.
    destruct (decide (w ∈ stop_words)) as [Hin|Hout].
    + rewrite bool_decide_eq_true_2 by done.         rewrite filter_cons_False by (intros Hn; by apply Hn). done.
    + rewrite bool_decide_eq_false_2 by done.
      rewrite filter_cons_True by done.
      rewrite fmap_cons, <- app_assoc. done.
Qed.

(** Lowercasing and deleting the characters outside [a-z\s] leaves the
    whitespace where it was, so it can be done word by word: the words of
    the cleaned text are the bare forms of the words of the raw text,
    those that vanish apart. *)
Lemma bare_cons c s :
  bare (String c s)
  = if Py.class_az_space (Py.lower_char c)
    then String (Py.lower_char c) (bare s) else bare s.
Proof. reflexivity. Qed.

Lemma bare_cons_space c s :
  Py.isspace c = true → bare (String c s) = String c (bare s).
Proof.
  intros Hc. rewrite bare_cons, (lower_char_space c Hc).
  by rewrite (class_az_space_space c Hc).
Qed.

Lemma emit_filter w (ws : list string) :
  Py.emit w (filter (λ x, x ≠ "") ws) = filter (λ x, x ≠ "") (w :: ws).
Proof.
  destruct w as [|a w].
  - rewrite emit_empty. by rewrite filter_cons_False by (intros Hn; by apply Hn).
  - rewrite emit_nonempty by done. by rewrite filter_cons_True by done.
Qed.

Lemma bare_emit w ws :
  filter (λ x, x ≠ "") (bare <$> Py.emit w ws)
  = Py.emit (bare w) (filter (λ x, x ≠ "") (bare <$> ws)).
Proof.
  destruct w as [|a w]; [done|].
  rewrite emit_nonempty by done. by rewrite fmap_cons, emit_filter.
Qed.

Lemma split_scan_bare s :
  Py.split_scan (bare s)
  = (bare (Py.split_scan s).1,
     filter (λ x, x ≠ "") (bare <$> (Py.split_scan s).2)).
Proof.
  induction s as [|c s IH]; [done|].
  cbn [Py.split_scan].
  destruct (Py.split_scan s) as [w ws] eqn:Hs. cbn [fst snd] in IH.
  destruct (Py.isspace c) eqn:Hc; cbn [fst snd].
  - rewrite (bare_cons_space c s Hc). cbn [Py.split_scan].
    by rewrite IH, Hc, bare_emit.
  - rewrite !bare_cons.
    destruct (Py.class_az_space (Py.lower_char c)) eqn:Hk; [|done].
    cbn [Py.split_scan]. by rewrite IH, isspace_lower_char, Hc.
Qed.

Lemma split_bare s :
  Py.split (bare s) = filter (λ x, x ≠ "") (bare <$> Py.split s).
Proof.
  unfold Py.split. rewrite split_scan_bare.
  destruct (Py.split_scan s) as [w ws]. cbn [fst snd].
  by rewrite bare_emit.
Qed.

(** [clean_text] on a string, with the early return folded in. *)
Lemma clean_text_str s :
  clean_text (PyStr s)
  = Py.join " " (lemmatize <$> filter (λ w, w ∉ stop_words) (Py.split (bare s))).
Proof.
  unfold clean_text. destruct s as [|c s]; [done|].
  cbn [Py.is_empty]. by rewrite clean_loop.
Qed.

(** C7: an input that is not a string, or is the empty string, is cleaned
    to the empty string; [clean_text] is a total function, so no input
    makes it raise. *)
Theorem clean_text_non_string_or_empty (text : PyVal) :
  isinstance_str text = false ∨ text = PyStr "" →
  clean_text text = "".
Proof.
  intros [Hty | ->]; [|done].
  destruct text; simpl in *; congruence.
Qed.

(** C9: on every string, [clean_text] is the normalizer of the
    specification: lowercase, delete what is outside the lowercase-letter
    and whitespace class, split on whitespace, drop the stopwords,
    lemmatize, join with one space, the survivors staying in their order.
    The two sides share nothing but the stopword set and the lemmatizer:
    [str.lower], [re.sub], [str.split] and [str.join] as the code calls
    them on the left, the alphabet, the members of the whitespace class, a
    scan from the left and [String.concat] on the right. *)
Theorem clean_text_refines_normalizer (s : string) :
  clean_text (PyStr s) = normalizer_spec s.
Proof.
  rewrite clean_text_str. unfold normalizer_spec.
  rewrite <- (words_split (bare s)), (bare_letters s).
  rewrite String.list_ascii_of_string_of_list_ascii.
  symmetry. apply concat_join.
Qed.

(** C8 (amended): a string whose whitespace-separated tokens each carry a
    stopword or no word at all, once lowercased and rid of the characters
    outside [a-z], is cleaned to the empty string. *)
Theorem clean_text_stopwords_and_punctuation (s : string) :
  forallb stopword_or_punctuation (Py.split s) = true →
  clean_text (PyStr s) = "".
Proof.
  intros Hall. rewrite clean_text_str, split_bare.
  assert (filter (λ w, w ∉ stop_words)
            (filter (λ w, w ≠ "") (bare <$> Py.split s)) = []) as ->; [|done].
  induction (Py.split s) as [|t ts IH]; [done|].
  cbn [forallb] in Hall. apply andb_true_iff in Hall as [Ht Hts].
  rewrite fmap_cons. unfold stopword_or_punctuation in Ht.
  apply orb_true_iff in Ht as [He | Hs].
  - apply is_empty_true in He.
    rewrite filter_cons_False by (intros Hn; by apply Hn). by apply IH.
  - apply bool_decide_eq_true in Hs.
    destruct (decide (bare t = "")) as [He|Hne].
    + rewrite filter_cons_False by (intros Hn; by apply Hn). by apply IH.
    + rewrite filter_cons_True by done.
      rewrite filter_cons_False by (intros Hn; by apply Hn). by apply IH.
Qed.

End PreprocessFacts.

(** ** Fallible comprehensions *)

Lemma traverse_ok {A B} (f : A → result B) (g : A → B) (l : list A) :
  (∀ x, x ∈ l → f x = Ok (g x)) → traverse f l = Ok (g <$> l).
Proof.
  induction l as [|x l IH]; intros Hf; [done|].
  cbn [traverse]. rewrite (Hf x) by set_solver.
  rewrite IH by (intros y Hy; apply Hf; set_solver). done.
Qed.

Lemma getitem_lt {A} (l : list A) (i : nat) (d : A) :
  i < length l → Py.getitem l i = Ok (default d (l !! i)).
Proof.
  intros Hi. unfold Py.getitem.
  destruct (lookup_lt_is_Some_2 l i Hi) as [x ->]. done.
Qed.

(** ** Slices *)

Lemma slice_to_prefix {A} (stop : Z) (l : list A) :
  ∃ m, Py.slice_to stop l = take m l.
Proof. unfold Py.slice_to. destruct (stop <? 0)%Z; eauto. Qed.

Lemma slice_to_nonneg {A} (stop : Z) (l : list A) :
  (0 ≤ stop)%Z → Py.slice_to stop l = take (Z.to_nat stop) l.
Proof.
  intros Hk. unfold Py.slice_to.
  destruct (Z.ltb_spec stop 0); [lia|done].
Qed.

(** ** similarity.py *)

#[export] Instance score_ge_trans a : Transitive (score_ge a).
Proof. intros i j k Hij Hjk. unfold score_ge in *. by eapply Qle_trans. Qed.

Section SimilarityFacts.
Context `{Numpy}.

Lemma dot_zero_l u v : all_zero u = true → (dot u v == 0)%Q.
Proof.
  revert v. induction u as [|x u IH]; intros v Hz; [done|].
  destruct v as [|y v]; [done|].
  cbn [all_zero forallb] in Hz. apply andb_true_iff in Hz as [Hx Hu].
  apply Qeq_bool_iff in Hx. unfold dot. cbn [zip_with foldr].
  fold (dot u v). rewrite (IH v Hu), Hx. ring.
Qed.

Lemma normalize_row_zero u : all_zero u = true → normalize_row u = u.
Proof.
  intros Hz. unfold normalize_row.
  destruct (Qeq_bool (dot u u) 0) eqn:Hd; [done|].
  apply Qeq_bool_neq in Hd. destruct Hd. by apply dot_zero_l.
Qed.

(** The cosine of the all-zero row with any row is zero. *)
Lemma cosine_row_zero u Y :
  all_zero u = true → Forall (λ x, x == 0)%Q (cosine_row u Y).
Proof.
  intros Hz. unfold cosine_row. apply Forall_fmap, Forall_true.
  intros y. cbn. rewrite (normalize_row_zero u Hz). by apply dot_zero_l.
Qed.

Lemma length_cosine_row u Y : length (cosine_row u Y) = length Y.
Proof. unfold cosine_row. by rewrite length_fmap. Qed.

Lemma calculate_similarity_matrix_ok u Y :
  (0 <? length Y)%nat = true →
  (0 <? length u)%nat = true →
  same_width (length u) Y = true →
  calculate_similarity_matrix [u] Y = Ok (cosine_row u Y).
Proof.
  intros HY Hu Hw. unfold calculate_similarity_matrix, cosine_similarity.
  unfold check_pairwise_arrays. destruct Y as [|y Y]; [done|].
  rewrite Hu, Hw. cbn [same_width forallb]. by rewrite Nat.eqb_refl.
Qed.

Lemma get_similarity_scores_ok similarities indices :
  (∀ i, i ∈ indices → i < length similarities) →
  get_similarity_scores similarities indices
  = Ok (score_at similarities <$> indices).
Proof.
  intros Hin. apply traverse_ok. intros i Hi.
  by apply getitem_lt, Hin.
Qed.

Lemma find_top_matches_zero similarities :
  find_top_matches similarities 0 = [].
Proof. reflexivity. Qed.

Section Sorting.
Hypothesis Hsort : argsort_spec.

Lemma descending_perm a : reverse (np_argsort a) ≡ₚ seq 0 (length a).
Proof. rewrite reverse_Permutation. apply Hsort. Qed.

Lemma descending_sorted a :
  StronglySorted (score_ge a) (reverse (np_argsort a)).
Proof.
  apply Sorted_StronglySorted; [apply _|].
  apply (Sorted_reverse _ _ (proj2 (Hsort a))).
Qed.

Lemma length_descending a : length (reverse (np_argsort a)) = length a.
Proof. by rewrite (Permutation_length (descending_perm a)), length_seq. Qed.

Lemma find_top_matches_lt a top_n i :
  i ∈ find_top_matches a top_n → i < length a.
Proof.
  unfold find_top_matches.
  destruct (slice_to_prefix top_n (reverse (np_argsort a))) as [m ->].
  intros Hi. pose proof (elem_of_sublist _ _ _ Hi (sublist_take _ _)) as Hin.
  rewrite (descending_perm a) in Hin. clear Hi. rename Hin into Hi.
  apply elem_of_seq in Hi. lia.
Qed.

Lemma find_top_matches_NoDup a top_n : NoDup (find_top_matches a top_n).
Proof.
  unfold find_top_matches.
  destruct (slice_to_prefix top_n (reverse (np_argsort a))) as [m ->].
  apply (sublist_NoDup _ (reverse (np_argsort a))); [|apply sublist_take].
  rewrite (descending_perm a). apply NoDup_seq.
Qed.

Lemma find_top_matches_sorted a top_n :
  StronglySorted (score_ge a) (find_top_matches a top_n).
Proof.
  unfold find_top_matches.
  destruct (slice_to_prefix top_n (reverse (np_argsort a))) as [m ->].
  pose proof (descending_sorted a) as Hs.
  rewrite <- (take_drop m (reverse (np_argsort a))) in Hs.
  by apply StronglySorted_app_1_l in Hs.
Qed.

(** No index left out has a higher score than one that was taken. *)
Lemma find_top_matches_dominates a top_n i j :
  i ∈ find_top_matches a top_n →
  j < length a →
  j ∉ find_top_matches a top_n →
  (score_at a j <= score_at a i)%Q.
Proof.
  unfold find_top_matches.
  destruct (slice_to_prefix top_n (reverse (np_argsort a))) as [m ->].
  intros Hi Hj Hout.
  pose proof (descending_sorted a) as Hs.
  rewrite <- (take_drop m (reverse (np_argsort a))) in Hs.
  apply (StronglySorted_app_1_elem_of _ _ _ i j Hs Hi).
  assert (j ∈ reverse (np_argsort a)) as Hin.
  { rewrite (descending_perm a). apply elem_of_seq. lia. }
  rewrite <- (take_drop m (reverse (np_argsort a))) in Hin.
  apply elem_of_app in Hin as [?|?]; done.
Qed.

Lemma length_find_top_matches a top_n :
  (0 ≤ top_n)%Z →
  length (find_top_matches a top_n) = Z.to_nat top_n `min` length a.
Proof.
  intros Hk. unfold find_top_matches. rewrite slice_to_nonneg by done.
  by rewrite length_take, length_descending.
Qed.

Lemma find_top_matches_all a top_n :
  (Z.of_nat (length a) ≤ top_n)%Z →
  find_top_matches a top_n ≡ₚ seq 0 (length a).
Proof.
  intros Hk. unfold find_top_matches. rewrite slice_to_nonneg by lia.
  rewrite take_ge by (rewrite length_descending; lia).
  apply descending_perm.
Qed.

(** C2 (amended): top-K selection lists indices of the corpus by
    non-increasing score and cuts the list to K. For [K >= 0] it
    returns the smaller of K and the corpus size many indices, all
    distinct, so K is clipped from above only and [K = 0] selects
    nothing; no index left out scores higher than one selected. How
    equal scores are ordered is inherited from the reversed argsort. *)
Theorem find_top_matches_top_k (similarities : list Q) (K : Z) :
  (0 ≤ K)%Z →
  let top := find_top_matches similarities K in
  StronglySorted (score_ge similarities) top
  ∧ NoDup top
  ∧ (∀ i, i ∈ top → i < length similarities)
  ∧ length top = Z.to_nat K `min` length similarities
  ∧ (∀ i j, i ∈ top → j < length similarities → j ∉ top →
       (score_at similarities j <= score_at similarities i)%Q).
Proof.
  intros HK top. subst top.
  split; [apply find_top_matches_sorted|].
  split; [apply find_top_matches_NoDup|].
  split; [intros i; apply find_top_matches_lt|].
  split; [by apply length_find_top_matches|].
  intros i j. apply find_top_matches_dominates.
Qed.

End Sorting.
End SimilarityFacts.

(** ** Whitespace *)

Lemma lstrip_whitespace_only s : Py.whitespace_only s = true → Py.lstrip s = "".
Proof.
  induction s as [|c s IH]; [done|]. cbn [Py.whitespace_only Py.lstrip].
  intros [Hc Hs]%andb_true_iff. rewrite Hc. by apply IH.
Qed.

Lemma strip_whitespace_only s : Py.whitespace_only s = true → Py.strip s = "".
Proof. intros Hs. unfold Py.strip. by rewrite lstrip_whitespace_only. Qed.

(** ** recommend.py *)

Lemma traverse_Forall {A B} (f : A → result B) (P : B → Prop) (l : list A) ys :
  (∀ x y, f x = Ok y → P y) → traverse f l = Ok ys → Forall P ys.
Proof.
  intros Hf. revert ys. induction l as [|x l IH]; intros ys; cbn [traverse].
  - intros [= <-]. constructor.
  - destruct (f x) as [y|e] eqn:Hx; [|done]. cbn.
    destruct (traverse f l) as [zs|e]; [|done]. cbn.
    intros [= <-]. constructor; [by eapply Hf | by apply IH].
Qed.

Section RecommendFacts.
Context `{Nltk} `{Numpy}.

Lemma format_result_percentage self entry r :
  format_result self entry = Ok r →
  match_percentage r = (similarity_score r * 100)%Q.
Proof.
  destruct entry as [idx score]. unfold format_result.
  destruct (Py.getitem (game_ids self) idx) as [gid|]; [|done].
  destruct (Py.getitem (game_names self) idx) as [gname|]; [|done].
  by intros [= <-].
Qed.

Lemma format_result_ok self a i :
  i < length (game_ids self) → i < length (game_names self) →
  format_result self (i, score_at a i) = Ok (record_of self a i).
Proof.
  intros Hid Hname. unfold format_result.
  by rewrite (getitem_lt _ _ 0%Z Hid), (getitem_lt _ _ "" Hname).
Qed.

Lemma format_results_ok self a indices :
  (∀ i, i ∈ indices → i < length (game_ids self) ∧ i < length (game_names self)) →
  traverse (format_result self) (zip indices (score_at a <$> indices))
  = Ok (record_of self a <$> indices).
Proof.
  induction indices as [|i indices IH]; intros Hin; [done|].
  rewrite fmap_cons. cbn [zip_with traverse].
  destruct (Hin i) as [Hid Hname]; [apply list_elem_of_here|].
  rewrite format_result_ok by done. cbn.
  rewrite IH by (intros j Hj; by apply Hin, list_elem_of_further). done.
Qed.

Lemma recommend_nothing_left self user_review top_n :
  Py.strip (clean_text user_review) = "" →
  recommend self user_review top_n = Ok [].
Proof. intros He. unfold recommend. by rewrite He. Qed.

Lemma well_formed_inv self user_review :
  well_formed self user_review = true →
  (0 <? length (game_vectors self))%nat = true
  ∧ (0 <? length (query_row self user_review))%nat = true
  ∧ same_width (length (query_row self user_review)) (game_vectors self) = true
  ∧ length (game_names self) = length (game_vectors self)
  ∧ length (game_ids self) = length (game_vectors self).
Proof.
  unfold well_formed. rewrite !andb_true_iff, !Nat.eqb_eq. tauto.
Qed.

(** What [recommend] returns for a text that is not cleaned away, on
    artifacts that fit: the records of the games [find_top_matches]
    selects, in its order. *)
Lemma recommend_ranked self user_review top_n :
  argsort_spec →
  well_formed self user_review = true →
  Py.is_empty (Py.strip (clean_text user_review)) = false →
  recommend self user_review top_n
  = Ok (record_of self (similarities self user_review)
          <$> find_top_matches (similarities self user_review) top_n).
Proof.
  intros Hsort (Hrows & Hcols & Hwidth & Hnames & Hids)%well_formed_inv Hne.
  unfold recommend. rewrite Hne.
  unfold transform_text, vectorizer_transform. rewrite fmap_cons, fmap_nil.
  fold (query_row self user_review).
  rewrite calculate_similarity_matrix_ok by done. cbn.
  fold (similarities self user_review).
  assert (∀ i, i ∈ find_top_matches (similarities self user_review) top_n →
               i < length (game_vectors self)) as Hlt.
  { intros i Hi%(find_top_matches_lt Hsort).
    unfold similarities in Hi. by rewrite length_cosine_row in Hi. }
  rewrite get_similarity_scores_ok; cbn.
  - apply format_results_ok. intros i Hi%Hlt. lia.
  - intros i Hi%Hlt. unfold similarities. by rewrite length_cosine_row.
Qed.

Lemma length_similarities self user_review :
  length (similarities self user_review) = length (game_vectors self).
Proof. apply length_cosine_row. Qed.

(** C4: a raw input whose cleaned text is empty or made of whitespace
    only, the empty string among them, gets the empty list, whatever
    [top_n] is; nothing is raised. *)
Theorem recommend_empty_input self (user_review : PyVal) (top_n : Z) :
  Py.whitespace_only (clean_text user_review) = true →
  recommend self user_review top_n = Ok [].
Proof.
  intros Hw. by apply recommend_nothing_left, strip_whitespace_only.
Qed.

(** C5: in every record [recommend] returns, [match_percentage] is
    [similarity_score] times 100. *)
Theorem recommend_match_percentage self user_review top_n recommendations :
  recommend self user_review top_n = Ok recommendations →
  Forall (λ r, match_percentage r = (similarity_score r * 100)%Q)
         recommendations.
Proof.
  unfold recommend.
  destruct (Py.is_empty _); [intros [= <-]; constructor|].
  destruct (calculate_similarity_matrix _ _) as [sims|]; [|done]. cbn.
  destruct (get_similarity_scores _ _) as [scores|]; [|done]. cbn.
  apply traverse_Forall. intros entry r. apply format_result_percentage.
Qed.

Section Ranking.
Hypothesis Hsort : argsort_spec.

(** C3: for a query that is not cleaned away and [0 <= K <= corpus
    size], [recommend] returns exactly K records, their scores in
    non-increasing order. It holds whether or not the query hits the
    vocabulary. *)
Theorem recommend_returns_k_sorted self user_review (K : Z) :
  well_formed self user_review = true →
  Py.is_empty (Py.strip (clean_text user_review)) = false →
  (0 ≤ K ≤ Z.of_nat (length (game_vectors self)))%Z →
  ∃ recommendations,
    recommend self user_review K = Ok recommendations
    ∧ length recommendations = Z.to_nat K
    ∧ StronglySorted
        (λ r1 r2, (similarity_score r2 <= similarity_score r1)%Q)
        recommendations.
Proof.
  intros Hwf Hne HK. eexists. split; [by apply recommend_ranked|]. split.
  - rewrite length_fmap, (length_find_top_matches Hsort) by lia.
    rewrite length_similarities. lia.
  - eapply StronglySorted_fmap; [|apply (find_top_matches_sorted Hsort)].
    intros i j Hij. exact Hij.
Qed.

(** C10: [top_n] is neither validated nor clamped. For a query that is
    not cleaned away, a [top_n] of at least the corpus size gives one
    record per game, the games pairwise distinct, and a [top_n] of zero
    gives the empty list. *)
Theorem recommend_top_n_unclamped self user_review :
  well_formed self user_review = true →
  Py.is_empty (Py.strip (clean_text user_review)) = false →
  (∀ top_n : Z,
     (Z.of_nat (length (game_vectors self)) ≤ top_n)%Z →
     ∃ indices,
       NoDup indices
       ∧ length indices = length (game_vectors self)
       ∧ (∀ i, i ∈ indices ↔ i < length (game_vectors self))
       ∧ recommend self user_review top_n
         = Ok (record_of self (similarities self user_review) <$> indices))
  ∧ recommend self user_review 0 = Ok [].
Proof.
  intros Hwf Hne. split.
  - intros top_n Hn.
    exists (find_top_matches (similarities self user_review) top_n).
    pose proof (find_top_matches_all Hsort (similarities self user_review) top_n)
      as Hperm.
    rewrite length_similarities in Hperm. specialize (Hperm Hn).
    split; [apply (find_top_matches_NoDup Hsort)|].
    split; [by rewrite (Permutation_length Hperm), length_seq|].
    split; [|by apply recommend_ranked].
    intros i. rewrite Hperm, elem_of_seq. lia.
  - by rewrite recommend_ranked.
Qed.

(** C1 (amended): a query that is not cleaned away but whose row is all
    zero gets, for [top_n >= 0], the smaller of [top_n] and the corpus
    size many records, each with a similarity score and a match
    percentage of zero. *)
Theorem recommend_zero_query self user_review (top_n : Z) :
  well_formed self user_review = true →
  Py.is_empty (Py.strip (clean_text user_review)) = false →
  all_zero (query_row self user_review) = true →
  (0 ≤ top_n)%Z →
  ∃ recommendations,
    recommend self user_review top_n = Ok recommendations
    ∧ length recommendations
      = Z.to_nat top_n `min` length (game_vectors self)
    ∧ Forall (λ r, similarity_score r == 0 ∧ match_percentage r == 0)%Q
             recommendations.
Proof.
  intros Hwf Hne Hzero Hk. eexists. split; [by apply recommend_ranked|]. split.
  - rewrite length_fmap, (length_find_top_matches Hsort) by lia.
    by rewrite length_similarities.
  - apply Forall_fmap, Forall_forall. intros i Hi. cbn.
    assert (score_at (similarities self user_review) i == 0)%Q as Hs.
    { apply (find_top_matches_lt Hsort) in Hi.
      destruct (lookup_lt_is_Some_2 _ _ Hi) as [x Hx].
      unfold score_at. rewrite Hx. cbn.
      pose proof (cosine_row_zero _ (game_vectors self) Hzero) as Hall.
      rewrite Forall_forall in Hall. apply Hall.
      by eapply list_elem_of_lookup_2. }
    split; [done|]. rewrite Hs. ring.
Qed.

End Ranking.
End RecommendFacts.

(** ** Calls that follow one another *)

Section WorldFacts.
Context {world : Type} (L : Libraries world).





End WorldFacts.

(** The functional reading is the pipeline run with libraries that keep no
    state. *)
Lemma clean_words_in_stateless `{Nltk} `{Numpy} {world} words cleaned_words
    (w : world) :
  clean_words_in (stateless world) words cleaned_words w
  = (foldl clean_step cleaned_words words, w).
Proof.
  revert cleaned_words. induction words as [|word words IH];
    intros cleaned_words; [done|].
  cbn [clean_words_in foldl lib_stop_words lib_lemmatize stateless].
  unfold clean_step at 2. case_bool_decide; apply IH.
Qed.

Lemma recommend_in_stateless `{Nltk} `{Numpy} {world} self user_review top_n
    (w : world) :
  recommend_in (stateless world) self user_review top_n w
  = (recommend self user_review top_n, w).
Proof.
  assert (clean_text_in (stateless world) user_review w
          = (clean_text user_review, w)) as Hclean.
  { destruct user_review as [| | | | |s]; try done.
    cbn [clean_text_in clean_text].
    destruct (Py.is_empty s); [done|]. by rewrite clean_words_in_stateless. }
  unfold recommend_in, recommend. rewrite Hclean.
  destruct (Py.is_empty _); [done|].
  cbn [transform_text_in calculate_similarity_matrix_in lib_transform
       lib_cosine_similarity stateless].
  fold (transform_text (vectorizer self) (clean_text user_review)).
  fold (calculate_similarity_matrix
          (transform_text (vectorizer self) (clean_text user_review))
          (game_vectors self)).
  by destruct (calculate_similarity_matrix _ _).
Qed.

Lemma stateless_results_fixed `{Nltk} `{Numpy} (world : Type) :
  results_fixed (stateless world).
Proof. repeat split. Qed.

(** ** The sample model *)

Import Sample.

Lemma insert_index_perm before i l : insert_index before i l ≡ₚ i :: l.
Proof.
  induction l as [|j l IH]; [done|]. cbn [insert_index].
  destruct (before i j); [done|]. rewrite IH. apply Permutation_swap.
Qed.

Lemma insertion_sort_perm before l : foldr (insert_index before) [] l ≡ₚ l.
Proof.
  induction l as [|i l IH]; [done|]. cbn [foldr].
  by rewrite insert_index_perm, IH.
Qed.

Section StableArgsort.
Variable a : list Q.

Let ascending (i j : nat) : Prop := (score_at a i <= score_at a j)%Q.

Lemma not_above_false i j : not_above a i j = false → ascending j i.
Proof.
  unfold not_above, ascending. intros Hf.
  destruct (Qlt_le_dec (score_at a j) (score_at a i)) as [Hlt|Hle].
  - by apply Qlt_le_weak.
  - apply Qle_bool_iff in Hle. congruence.
Qed.

Lemma insert_index_HdRel i j l :
  ascending j i → HdRel ascending j l →
  HdRel ascending j (insert_index (not_above a) i l).
Proof.
  intros Hji Hhd. destruct l as [|k l]; cbn [insert_index].
  - by constructor.
  - destruct (not_above a i k); constructor; [done|].
    by inversion Hhd.
Qed.

Lemma insert_index_sorted i l :
  Sorted ascending l → Sorted ascending (insert_index (not_above a) i l).
Proof.
  induction 1 as [|j l Hl IH Hhd]; cbn [insert_index].
  - by repeat constructor.
  - destruct (not_above a i j) eqn:Hb.
    + constructor; [by constructor|]. constructor. by apply Qle_bool_iff.
    + constructor; [done|].
      apply insert_index_HdRel; [by apply not_above_false|done].
Qed.

Lemma insertion_sort_sorted l :
  Sorted ascending (foldr (insert_index (not_above a)) [] l).
Proof.
  induction l as [|i l IH]; cbn [foldr]; [constructor|].
  by apply insert_index_sorted.
Qed.

End StableArgsort.

(** The stable argsort keeps the promise of [np.argsort]. *)
Lemma argsort_stable_spec : @argsort_spec Sample.numpy.
Proof.
  intros a. split.
  - apply insertion_sort_perm.
  - apply insertion_sort_sorted.
Qed.

(** ** The pipeline on the sample model *)

Lemma in_english_stopwords w :
  bool_decide (w ∈ english_stopwords) = true → w ∈ stop_words.
Proof.
  intros Hw%bool_decide_eq_true. by apply elem_of_list_to_set.
Qed.

Example clean_text_example :
  clean_text (PyStr "I LOVE fast-paced Shooters, and 3 puzzles!")
  = "love fastpaced shooter puzzle".
Proof. reflexivity. Qed.

(** A negative [top_n] is not refused either: the slice drops that many
    games from the end of the ranking. *)
Example recommend_negative_top_n :
  recommend games (PyStr "shooters!") (-1)
  = Ok [ {| game_id := 379720; game_name := "Doom";
            similarity_score := 20 # 25; match_percentage := 2000 # 25 |};
         {| game_id := 1672970; game_name := "Minecraft";
            similarity_score := 0; match_percentage := 0 |} ].
Proof. vm_compute. reflexivity. Qed.

(** C8, as stated, fails: with a full stop and no whitespace between two
    stopwords, their letters merge into one word, which is kept; and a
    stopword that has an apostrophe loses it before the stopwords are
    looked up. *)
Lemma stopwords_glued_by_punctuation :
  only_stopwords_and_punctuation "the.and"
  ∧ clean_text (PyStr "the.and") = "theand"
  ∧ only_stopwords_and_punctuation "don't"
  ∧ clean_text (PyStr "don't") = "dont".
Proof.
  split; [|split; [reflexivity|split; [|reflexivity]]].
  - apply (osp_stopword "the" ".and"); [by apply in_english_stopwords|].
    apply osp_punctuation; [reflexivity|].
    apply (osp_stopword "and" ""); [by apply in_english_stopwords|].
    apply osp_end.
  - apply (osp_stopword "don't" ""); [by apply in_english_stopwords|].
    apply osp_end.
Qed.

(** C1, as stated, fails: "xyzzy" is not cleaned away and is unknown to
    the vectorizer, and two games come back with a score of zero. *)
Lemma unknown_words_still_ranked :
  clean_text (PyStr "xyzzy123") = "xyzzy"
  ∧ all_zero (query_row games (PyStr "xyzzy123")) = true
  ∧ recommend games (PyStr "xyzzy123") 2
    = Ok [ {| game_id := 1672970; game_name := "Minecraft";
              similarity_score := 0; match_percentage := 0 |};
           {| game_id := 1100; game_name := "Tetris";
              similarity_score := 0; match_percentage := 0 |} ].
Proof. repeat split; vm_compute; reflexivity. Qed.

(** C2, as stated, fails: K = 0 is not raised to 1, and two equal scores
    come out of the reversed stable argsort in reverse corpus order. *)
Lemma top_k_neither_clamped_nor_stable :
  find_top_matches [1 # 2; 1 # 2; 1 # 3]%Q 0 = []
  ∧ top_k_spec [1 # 2; 1 # 2; 1 # 3]%Q 0 = [0]
  ∧ find_top_matches [1 # 2; 1 # 2; 1 # 3]%Q 2 = [1; 0]
  ∧ top_k_spec [1 # 2; 1 # 2; 1 # 3]%Q 2 = [0; 1].
Proof. repeat split; vm_compute; reflexivity. Qed.

Lemma clean_text_non_string_or_empty_witness :
  (isinstance_str PyNaN = false ∨ PyNaN = PyStr "")
  ∧ clean_text PyNaN = "".
Proof.
  split; [by left|].
  apply (clean_text_non_string_or_empty PyNaN). by left.
Defined.

Lemma clean_text_stopwords_and_punctuation_witness :
  forallb stopword_or_punctuation (Py.split "The, and... 42 !") = true
  ∧ clean_text (PyStr "The, and... 42 !") = "".
Proof.
  split; [reflexivity|].
  apply (clean_text_stopwords_and_punctuation "The, and... 42 !").
  reflexivity.
Defined.

Lemma recommend_empty_input_witness :
  Py.whitespace_only (clean_text (PyStr "")) = true
  ∧ recommend games (PyStr "") 5 = Ok [].
Proof.
  split; [reflexivity|].
  apply (recommend_empty_input games (PyStr "") 5). reflexivity.
Defined.

Lemma recommend_match_percentage_witness :
  recommend games (PyStr "shooters!") 2
  = Ok [ {| game_id := 379720; game_name := "Doom";
            similarity_score := 20 # 25; match_percentage := 2000 # 25 |};
         {| game_id := 1672970; game_name := "Minecraft";
            similarity_score := 0; match_percentage := 0 |} ]
  ∧ Forall (λ r, match_percentage r = (similarity_score r * 100)%Q)
      [ {| game_id := 379720; game_name := "Doom";
           similarity_score := 20 # 25; match_percentage := 2000 # 25 |};
        {| game_id := 1672970; game_name := "Minecraft";
           similarity_score := 0; match_percentage := 0 |} ].
Proof.
  split; [vm_compute; reflexivity|].
  apply (recommend_match_percentage games (PyStr "shooters!") 2).
  vm_compute. reflexivity.
Defined.

(** Libraries that change state at every call, and return what the small
    model returns. *)
Lemma counting_results_fixed : results_fixed Stateful.counting.
Proof. repeat split. Qed.

(** The first call leaves another world than it found: the review
    [a puzzle] costs one call of each library. *)
Example counting_counts :
  (recommend_in Stateful.counting games (PyStr "a puzzle") 1 0%nat).2 = 4%nat.
Proof. reflexivity. Qed.


Lemma Sorted_mono {A} (R R' : relation A) (l : list A) :
  (∀ x y, R x y → R' x y) → Sorted R l → Sorted R' l.
Proof.
  intros Hmono. induction 1 as [|x l _ IH Hhd]; constructor; [done|].
  destruct Hhd; constructor; auto.
Qed.

(** The sort that reverses ties keeps the promise of [np.argsort] as
    well. *)
Lemma argsort_ties_reversed_spec (a : list Q) :
  Stateful.argsort_ties_reversed a ≡ₚ seq 0 (length a)
  ∧ Sorted (λ i j, (score_at a i <= score_at a j)%Q)
      (Stateful.argsort_ties_reversed a).
Proof.
  unfold Stateful.argsort_ties_reversed.
  destruct (argsort_stable_spec (Qopp <$> a)) as [Hperm Hsorted].
  cbn in Hperm, Hsorted. split.
  - by rewrite reverse_Permutation, Hperm, length_fmap.
  - apply Sorted_reverse in Hsorted.
    eapply Sorted_mono; [|exact Hsorted].
    intros i j. unfold flip, score_at. rewrite !list_lookup_fmap.
    destruct (a !! i) as [x|], (a !! j) as [y|]; cbn; intros Hle.
    + by apply Qopp_le_compat in Hle; rewrite !Qopp_involutive in Hle.
    + apply Qopp_le_compat in Hle. by rewrite Qopp_involutive in Hle.
    + apply Qopp_le_compat in Hle. by rewrite Qopp_involutive in Hle.
    + apply Qle_refl.
Qed.

(** Without that trust the two calls need not agree: with a sort that
    breaks ties by a coin it turns over, a review no game matches gets the
    last two games first, and the first two next. *)
Example tie_flipping_calls_differ :
  ¬ results_fixed Stateful.tie_flipping
  ∧ (recommend_twice Stateful.tie_flipping games (PyStr "xyzzy123") 2 false).1
    ≠ (recommend_twice Stateful.tie_flipping games (PyStr "xyzzy123") 2 false).2.
Proof.
  split.
  - intros (_ & _ & _ & Hsort).
    specialize (Hsort [0; 0]%Q false true). vm_compute in Hsort. discriminate.
  - vm_compute. discriminate.
Qed.

Lemma recommend_returns_k_sorted_witness :
  well_formed games (PyStr "shooters!") = true
  ∧ Py.is_empty (Py.strip (clean_text (PyStr "shooters!"))) = false
  ∧ (0 ≤ 2 ≤ Z.of_nat (length (game_vectors games)))%Z
  ∧ ∃ recommendations,
      recommend games (PyStr "shooters!") 2 = Ok recommendations
      ∧ length recommendations = 2
      ∧ StronglySorted
          (λ r1 r2, (similarity_score r2 <= similarity_score r1)%Q)
          recommendations.
Proof.
  split; [reflexivity|]. split; [reflexivity|]. split; [cbn; lia|].
  apply (recommend_returns_k_sorted argsort_stable_spec games (PyStr "shooters!") 2).
  - reflexivity.
  - reflexivity.
  - cbn. lia.
Defined.

Lemma recommend_top_n_unclamped_witness :
  well_formed games (PyStr "shooters!") = true
  ∧ Py.is_empty (Py.strip (clean_text (PyStr "shooters!"))) = false
  ∧ (∀ top_n : Z,
       (3 ≤ top_n)%Z →
       ∃ indices,
         NoDup indices
         ∧ length indices = 3
         ∧ (∀ i, i ∈ indices ↔ i < 3)
         ∧ recommend games (PyStr "shooters!") top_n
           = Ok (record_of games (similarities games (PyStr "shooters!"))
                   <$> indices))
  ∧ recommend games (PyStr "shooters!") 0 = Ok [].
Proof.
  split; [reflexivity|]. split; [reflexivity|].
  apply (recommend_top_n_unclamped argsort_stable_spec games (PyStr "shooters!"));
    reflexivity.
Defined.

Lemma recommend_zero_query_witness :
  well_formed games (PyStr "xyzzy123") = true
  ∧ Py.is_empty (Py.strip (clean_text (PyStr "xyzzy123"))) = false
  ∧ all_zero (query_row games (PyStr "xyzzy123")) = true
  ∧ ∃ recommendations,
      recommend games (PyStr "xyzzy123") 2 = Ok recommendations
      ∧ length recommendations = 2
      ∧ Forall (λ r, similarity_score r == 0 ∧ match_percentage r == 0)%Q
               recommendations.
Proof.
  split; [reflexivity|]. split; [reflexivity|]. split; [reflexivity|].
  apply (recommend_zero_query argsort_stable_spec games (PyStr "xyzzy123") 2).
  - reflexivity.
  - reflexivity.
  - reflexivity.
  - lia.
Defined.

Lemma find_top_matches_top_k_witness :
  let top := find_top_matches [1 # 2; 1 # 2; 1 # 3]%Q 2 in
  StronglySorted (score_ge [1 # 2; 1 # 2; 1 # 3]%Q) top
  ∧ NoDup top
  ∧ (∀ i, i ∈ top → i < 3)
  ∧ length top = 2
  ∧ (∀ i j, i ∈ top → j < 3 → j ∉ top →
       (score_at [1 # 2; 1 # 2; 1 # 3] j <= score_at [1 # 2; 1 # 2; 1 # 3] i)%Q).
Proof.
  apply (find_top_matches_top_k argsort_stable_spec [1 # 2; 1 # 2; 1 # 3]%Q 2).
  lia.
Defined.

(** * More of the code *)

(** ** Words and whitespace *)

Lemma lower_char_idem c : Py.lower_char (Py.lower_char c) = Py.lower_char c.
Proof. by_cases_on_char c. Qed.

Lemma lower_char_class c :
  Py.class_az_space c = true → Py.lower_char c = c.
Proof. by_cases_on_char c. Qed.

Lemma lower_idem s : Py.lower (Py.lower s) = Py.lower s.
Proof.
  induction s as [|c s IH]; [done|]. cbn [Py.lower].
  by rewrite lower_char_idem, IH.
Qed.

Lemma append_empty_l s : "" +:+ s = s.
Proof. reflexivity. Qed.

Lemma append_cons c w s : String c w +:+ s = String c (w +:+ s).
Proof. reflexivity. Qed.

Lemma append_empty_r s : s +:+ "" = s.
Proof. induction s as [|c s IH]; [done|]. by rewrite append_cons, IH. Qed.

Lemma split_scan_word w s :
  PyMore.no_space w = true →
  Py.split_scan (w +:+ s) = (w +:+ (Py.split_scan s).1, (Py.split_scan s).2).
Proof.
  induction w as [|c w IH]; intros Hw.
  - rewrite append_empty_l. by destruct (Py.split_scan s).
  - cbn [PyMore.no_space] in Hw. apply andb_true_iff in Hw as [Hc Hw].
    apply negb_true_iff in Hc. rewrite append_cons. cbn [Py.split_scan].
    rewrite (IH Hw), Hc. cbn [fst snd]. by rewrite append_cons.
Qed.

Lemma split_scan_space c s :
  Py.isspace c = true →
  Py.split_scan (String c s) = ("", Py.split s).
Proof.
  intros Hc. cbn [Py.split_scan]. unfold Py.split.
  destruct (Py.split_scan s) as [w ws]. by rewrite Hc.
Qed.

Lemma is_word_nonempty w : PyMore.is_word w = true → Py.is_empty w = false.
Proof. unfold PyMore.is_word. intros [H _]%andb_true_iff. by apply negb_true_iff. Qed.

Lemma is_word_no_space w : PyMore.is_word w = true → PyMore.no_space w = true.
Proof. unfold PyMore.is_word. by intros [_ H]%andb_true_iff. Qed.

Lemma is_empty_append w s : Py.is_empty w = false → Py.is_empty (w +:+ s) = false.
Proof. by destruct w. Qed.

(** A word followed by whitespace is the first word of the split. *)
Lemma split_word_space w c s :
  PyMore.is_word w = true → Py.isspace c = true →
  Py.split (w +:+ String c s) = w :: Py.split s.
Proof.
  intros Hw Hc. unfold Py.split at 1.
  rewrite split_scan_word by by apply is_word_no_space.
  rewrite (split_scan_space c s Hc). cbn [fst snd].
  rewrite append_empty_r. by rewrite emit_nonempty by by apply is_word_nonempty.
Qed.

Lemma split_word w : PyMore.is_word w = true → Py.split w = [w].
Proof.
  intros Hw. unfold Py.split.
  rewrite <- (append_empty_r w) at 1.
  rewrite split_scan_word by by apply is_word_no_space.
  cbn [Py.split_scan fst snd]. rewrite append_empty_r.
  by rewrite emit_nonempty by by apply is_word_nonempty.
Qed.

(** Splitting undoes joining with a space, for words. *)
Lemma split_join ws :
  Forall (λ w, PyMore.is_word w = true) ws → Py.split (Py.join " " ws) = ws.
Proof.
  induction 1 as [|w ws Hw Hws IH]; [done|].
  destruct ws as [|w2 ws]; [by apply split_word|].
  change (Py.join " " (w :: w2 :: ws))
    with (w +:+ String " "%char (Py.join " " (w2 :: ws))).
  rewrite split_word_space by done. by rewrite IH.
Qed.

Lemma split_scan_words s :
  PyMore.no_space (Py.split_scan s).1 = true
  ∧ Forall (λ w, PyMore.is_word w = true) (Py.split_scan s).2.
Proof.
  induction s as [|c s [IHw IHws]]; [by split|].
  cbn [Py.split_scan]. destruct (Py.split_scan s) as [w ws]. cbn [fst snd] in *.
  destruct (Py.isspace c) eqn:Hc; cbn [fst snd].
  - split; [done|]. unfold Py.emit.
    destruct (Py.is_empty w) eqn:Hw; [done|].
    constructor; [|done]. unfold PyMore.is_word. by rewrite Hw, IHw.
  - split; [|done]. cbn [PyMore.no_space]. by rewrite Hc, IHw.
Qed.

(** What [str.split()] returns are words. *)
Lemma split_words s : Forall (λ w, PyMore.is_word w = true) (Py.split s).
Proof.
  unfold Py.split. destruct (split_scan_words s) as [Hw Hws].
  destruct (Py.split_scan s) as [w ws]. cbn [fst snd] in *.
  unfold Py.emit. destruct (Py.is_empty w) eqn:He; [done|].
  constructor; [|done]. unfold PyMore.is_word. by rewrite He, Hw.
Qed.

Lemma rstrip_no_space w : PyMore.no_space w = true → Py.rstrip w = w.
Proof.
  induction w as [|c w IH]; [done|]. cbn [PyMore.no_space Py.rstrip].
  intros [Hc Hw]%andb_true_iff. apply negb_true_iff in Hc.
  by rewrite (IH Hw), Hc.
Qed.

Lemma rstrip_append a b :
  Py.is_empty b = false → Py.rstrip b = b → Py.rstrip (a +:+ b) = a +:+ b.
Proof.
  intros Hb Hr. induction a as [|c a IH]; [done|].
  rewrite append_cons. cbn [Py.rstrip]. rewrite IH.
  destruct b; [done|]. destruct a; cbn; by rewrite andb_false_r.
Qed.

Lemma join_cons2 sep w w2 ws :
  Py.join sep (w :: w2 :: ws) = w +:+ sep +:+ Py.join sep (w2 :: ws).
Proof. reflexivity. Qed.

Lemma join_words_nonempty w ws :
  Py.is_empty w = false → Py.is_empty (Py.join " " (w :: ws)) = false.
Proof.
  intros Hw. destruct ws as [|w2 ws]; [done|].
  rewrite join_cons2. by apply is_empty_append.
Qed.

Lemma rstrip_join ws :
  Forall (λ w, PyMore.is_word w = true) ws →
  Py.rstrip (Py.join " " ws) = Py.join " " ws.
Proof.
  induction 1 as [|w ws Hw Hws IH]; [done|].
  destruct ws as [|w2 ws].
  - by apply rstrip_no_space, is_word_no_space.
  - rewrite join_cons2. apply rstrip_append.
    + apply is_empty_append. done.
    + apply rstrip_append; [|done].
      apply join_words_nonempty, is_word_nonempty. by inversion Hws.
Qed.

Lemma lstrip_word_append w s :
  PyMore.is_word w = true → Py.lstrip (w +:+ s) = w +:+ s.
Proof.
  destruct w as [|c w]; [done|]. unfold PyMore.is_word.
  cbn [Py.is_empty negb andb PyMore.no_space].
  intros [Hc _]%andb_true_iff. apply negb_true_iff in Hc.
  rewrite append_cons. cbn [Py.lstrip]. by rewrite Hc.
Qed.

(** A space-separated list of words has nothing to strip. *)
Lemma strip_join ws :
  Forall (λ w, PyMore.is_word w = true) ws →
  Py.strip (Py.join " " ws) = Py.join " " ws.
Proof.
  intros Hws. unfold Py.strip.
  assert (Py.lstrip (Py.join " " ws) = Py.join " " ws) as ->.
  { destruct Hws as [|w ws Hw Hws]; [done|].
    destruct ws as [|w2 ws].
    - rewrite <- (append_empty_r w). by apply lstrip_word_append.
    - rewrite join_cons2. by apply lstrip_word_append. }
  by apply rstrip_join.
Qed.

Lemma join_empty ws :
  Forall (λ w, Py.is_empty w = false) ws → Py.join " " ws = "" → ws = [].
Proof.
  intros Hws Hj. destruct Hws as [|w ws Hw Hws]; [done|].
  pose proof (join_words_nonempty w ws Hw) as Hne. by rewrite Hj in Hne.
Qed.

Lemma re_sub_delete_outside_idem class s :
  Py.re_sub_delete_outside class (Py.re_sub_delete_outside class s)
  = Py.re_sub_delete_outside class s.
Proof.
  induction s as [|c s IH]; [done|]. cbn [Py.re_sub_delete_outside].
  destruct (class c) eqn:Hc; [|done].
  cbn [Py.re_sub_delete_outside]. by rewrite Hc, IH.
Qed.

Lemma lower_re_sub_delete_outside s :
  Py.lower (Py.re_sub_delete_outside Py.class_az_space s)
  = Py.re_sub_delete_outside Py.class_az_space s.
Proof.
  induction s as [|c s IH]; [done|]. cbn [Py.re_sub_delete_outside].
  destruct (Py.class_az_space c) eqn:Hc; [|done].
  cbn [Py.lower]. by rewrite IH, (lower_char_class c Hc).
Qed.

Section PreprocessMore.
Context `{Nltk}.

Lemma bare_lower s : bare (Py.lower s) = bare s.
Proof. unfold bare. by rewrite lower_idem. Qed.

Lemma bare_idem s : bare (bare s) = bare s.
Proof.
  unfold bare. by rewrite lower_re_sub_delete_outside, re_sub_delete_outside_idem.
Qed.

(** X1: [clean_text] sees neither letter case nor the characters it
    deletes: a string, its lowercase form, and its lowercase form rid of
    every character outside [a-z] and whitespace ([bare], what steps 1 and
    2 leave of it) are cleaned to the same text. The deletion is that of
    the lowercase form: done on the string as typed it would take the
    capitals away too. *)
Theorem clean_text_ignores_case_and_punctuation (s : string) :
  clean_text (PyStr (Py.lower s)) = clean_text (PyStr s)
  ∧ clean_text (PyStr (bare s)) = clean_text (PyStr s).
Proof.
  rewrite !clean_text_str. by rewrite bare_lower, bare_idem.
Qed.

(** The order of steps 1 and 2 matters to the capitals. *)
Example deletion_as_typed :
  Py.re_sub_delete_outside Py.class_az_space "Shooters!" = "hooters"
  ∧ bare "Shooters!" = "shooters".
Proof. split; reflexivity. Qed.

Lemma survivors_nil (tokens : list string) :
  filter (λ w, w ∉ stop_words) (filter (λ x, x ≠ "") (bare <$> tokens)) = []
  ↔ forallb stopword_or_punctuation tokens = true.
Proof.
  induction tokens as [|t ts IH]; [done|].
  rewrite fmap_cons. cbn [forallb]. rewrite andb_true_iff, <- IH.
  unfold stopword_or_punctuation. rewrite orb_true_iff, is_empty_true.
  rewrite bool_decide_eq_true.
  destruct (decide (bare t = "")) as [He|Hne].
  - rewrite filter_cons_False by (intros Hn; by apply Hn). tauto.
  - rewrite filter_cons_True by done.
    destruct (decide (bare t ∈ stop_words)) as [Hin|Hout].
    + rewrite filter_cons_False by (intros Hn; by apply Hn). tauto.
    + rewrite filter_cons_True by done. intuition discriminate.
Qed.

Lemma bare_tokens_words s : Forall (λ w, PyMore.is_word w = true) (Py.split (bare s)).
Proof. apply split_words. Qed.

(** X2: when the lemmatizer never returns the empty string for a word,
    the strings cleaned to the empty text are exactly those whose
    whitespace-separated tokens each carry a stopword or no letter at
    all. *)
Theorem clean_text_empty_iff (s : string) :
  (∀ w, PyMore.is_word w = true → Py.is_empty (lemmatize w) = false) →
  clean_text (PyStr s) = ""
  ↔ forallb stopword_or_punctuation (Py.split s) = true.
Proof.
  intros Hlem. rewrite clean_text_str, <- survivors_nil, <- split_bare. split.
  - intros Hj. apply join_empty in Hj.
    + by apply fmap_nil_inv in Hj.
    + apply Forall_fmap, Forall_forall. intros w Hw%list_elem_of_filter.
      apply Hlem. destruct Hw as [_ Hw].
      pose proof (bare_tokens_words s) as Hall.
      rewrite Forall_forall in Hall. by apply Hall.
  - by intros ->.
Qed.

(** X3: when the lemmatizer turns words into words, the cleaned text is
    the list of lemmas and nothing more: splitting it gives back the lemmas
    of the tokens that are not stopwords, in order, and stripping it
    changes nothing. *)
Theorem clean_text_is_word_list (s : string) :
  (∀ w, PyMore.is_word w = true → PyMore.is_word (lemmatize w) = true) →
  Py.split (clean_text (PyStr s))
  = lemmatize <$> filter (λ w, w ∉ stop_words) (Py.split (bare s))
  ∧ Py.strip (clean_text (PyStr s)) = clean_text (PyStr s).
Proof.
  intros Hlem. rewrite clean_text_str.
  assert (Forall (λ w, PyMore.is_word w = true)
            (lemmatize <$> filter (λ w, w ∉ stop_words) (Py.split (bare s))))
    as Hwords.
  { apply Forall_fmap, Forall_forall. intros w Hw%list_elem_of_filter.
    apply Hlem. destruct Hw as [_ Hw].
    pose proof (bare_tokens_words s) as Hall.
    rewrite Forall_forall in Hall. by apply Hall. }
  split; [by apply split_join | by apply strip_join].
Qed.

End PreprocessMore.

(** ** similarity.py, further *)

Lemma traverse_raise {A B} (f : A → result B) (e : exn) (l : list A) :
  (∀ x, x ∈ l → (∃ y, f x = Ok y) ∨ f x = Raise e) →
  Exists (λ x, f x = Raise e) l →
  traverse f l = Raise e.
Proof.
  intros Hf Hex. induction l as [|x l IH]; [by inversion Hex|].
  cbn [traverse].
  destruct (Hf x) as [[y Hy]|Hx]; [apply list_elem_of_here| |by rewrite Hx].
  rewrite Hy. cbn.
  rewrite IH; [done| |].
  - intros z Hz. by apply Hf, list_elem_of_further.
  - inversion Hex as [? ? Hhd|? ? Htl]; subst; [congruence|done].
Qed.

Lemma same_width_cons d y Y :
  same_width d (y :: Y) = true ↔ length y = d ∧ same_width d Y = true.
Proof.
  unfold same_width. cbn [forallb]. by rewrite andb_true_iff, Nat.eqb_eq.
Qed.

Lemma same_width_lookup d Y i y :
  same_width d Y = true → Y !! i = Some y → length y = d.
Proof.
  unfold same_width. rewrite forallb_forall. intros Hall Hy.
  apply Nat.eqb_eq, Hall, list_elem_of_In. by eapply list_elem_of_lookup_2.
Qed.

Section SimilarityMore.
Context `{Numpy}.

Lemma dot_comm u v : (dot u v == dot v u)%Q.
Proof.
  revert v. induction u as [|x u IH]; intros [|y v]; try done.
  unfold dot. cbn [zip_with foldr]. fold (dot u v) (dot v u).
  rewrite (IH v). ring.
Qed.

Lemma check_pairwise_arrays_sym X Y :
  check_pairwise_arrays X Y = check_pairwise_arrays Y X.
Proof.
  unfold check_pairwise_arrays.
  destruct X as [|x X], Y as [|y Y]; try done.
  destruct (_ && _ && same_width (length x) (y :: Y)) eqn:Hxy.
  - apply andb_true_iff in Hxy as [[Hx HX]%andb_true_iff HY].
    pose proof HY as [Hy _]%same_width_cons. rewrite Hy.
    by rewrite Hx, HX, HY.
  - destruct (_ && _ && same_width (length y) (x :: X)) eqn:Hyx; [|done].
    apply andb_true_iff in Hyx as [[Hy HY]%andb_true_iff HX].
    pose proof HX as [Hx _]%same_width_cons. rewrite Hx in Hxy.
    by rewrite Hy, HY, HX in Hxy.
Qed.

Lemma check_pairwise_arrays_ok X Y :
  check_pairwise_arrays X Y = Ok () ∨ check_pairwise_arrays X Y = Raise ValueError.
Proof.
  unfold check_pairwise_arrays. destruct X, Y; auto. destruct (_ && _ && _); auto.
Qed.

(** X4: [calculate_similarity] is symmetric: with its two arguments
    exchanged it gives the same score, or raises the same [ValueError]. *)
Theorem calculate_similarity_sym (vector1 vector2 : list (list Q)) :
  same_score (calculate_similarity vector1 vector2)
             (calculate_similarity vector2 vector1).
Proof.
  unfold calculate_similarity, cosine_similarity.
  rewrite (check_pairwise_arrays_sym vector2 vector1).
  unfold check_pairwise_arrays.
  destruct vector1 as [|x X], vector2 as [|y Y]; try done.
  destruct (_ && _ && _); [|done]. cbn. apply dot_comm.
Qed.

(** X5: the batch agrees with the one-by-one computation: the score
    [calculate_similarity_matrix] gives the game in row [i] is the score
    [calculate_similarity] gives that row alone. *)
Theorem calculate_similarity_matrix_pointwise
    (u : list Q) (Y : list (list Q)) (sims : list Q) (i : nat) (y : list Q) :
  calculate_similarity_matrix [u] Y = Ok sims →
  Y !! i = Some y →
  length sims = length Y
  ∧ ∃ score, sims !! i = Some score ∧ calculate_similarity [u] [y] = Ok score.
Proof.
  intros Hsims Hy.
  assert ((0 <? length u)%nat = true ∧ same_width (length u) Y = true
          ∧ sims = cosine_row u Y) as (Hu & HY & ->).
  { revert Hsims.
    unfold calculate_similarity_matrix, cosine_similarity, check_pairwise_arrays.
    destruct Y as [|y0 Y]; [done|].
    destruct (0 <? length u)%nat; [|done].
    destruct (same_width (length u) [u]); [|done].
    destruct (same_width (length u) (y0 :: Y)); [|done].
    by intros [= <-]. }
  split; [apply length_cosine_row|].
  exists (dot (normalize_row u) (normalize_row y)). split.
  - unfold cosine_row. by rewrite list_lookup_fmap, Hy.
  - unfold calculate_similarity, cosine_similarity, check_pairwise_arrays.
    rewrite Hu. cbn [same_width forallb].
    rewrite (same_width_lookup _ _ _ _ HY Hy), Nat.eqb_refl. done.
Qed.

End SimilarityMore.

(** ** recommend.py, further *)

Lemma traverse_zip_fmap {A B C} (f : A * B → result C) (g : A → B) (l : list A) :
  traverse f (zip l (g <$> l)) = traverse (λ x, f (x, g x)) l.
Proof.
  induction l as [|x l IH]; [done|].
  rewrite fmap_cons. cbn [zip_with traverse]. by rewrite IH.
Qed.

Lemma getitem_ge {A} (l : list A) (i : nat) :
  (length l ≤ i)%nat → Py.getitem l i = Raise IndexError.
Proof. intros Hi. unfold Py.getitem. by rewrite lookup_ge_None_2. Qed.

Section RecommendMoreFacts.
Context `{Nltk} `{Numpy}.

Lemma shapes_fit_inv self user_review :
  shapes_fit self user_review = true →
  (0 <? length (game_vectors self))%nat = true
  ∧ (0 <? length (query_row self user_review))%nat = true
  ∧ same_width (length (query_row self user_review)) (game_vectors self) = true.
Proof. unfold shapes_fit. rewrite !andb_true_iff. tauto. Qed.

Lemma well_formed_shapes_fit self user_review :
  well_formed self user_review = true → shapes_fit self user_review = true.
Proof.
  intros (? & ? & ? & _)%well_formed_inv. unfold shapes_fit.
  by rewrite !andb_true_iff.
Qed.

Lemma calculate_similarity_matrix_bad_shape u Y :
  (0 <? length Y)%nat && (0 <? length u)%nat && same_width (length u) Y = false →
  calculate_similarity_matrix [u] Y = Raise ValueError.
Proof.
  intros Hbad. unfold calculate_similarity_matrix, cosine_similarity.
  unfold check_pairwise_arrays. destruct Y as [|y Y]; [done|].
  assert ((0 <? length u)%nat && same_width (length u) [u]
          && same_width (length u) (y :: Y) = false) as ->; [|done].
  destruct (0 <? length u)%nat; [|done].
  destruct (same_width (length u) (y :: Y)); [done|].
  by rewrite andb_false_r.
Qed.

Lemma format_result_outcome self a i :
  format_result self (i, score_at a i)
  = if (i <? length (game_ids self))%nat && (i <? length (game_names self))%nat
    then Ok (record_of self a i) else Raise IndexError.
Proof.
  destruct (Nat.ltb_spec i (length (game_ids self))) as [Hid|Hid].
  - destruct (Nat.ltb_spec i (length (game_names self))) as [Hname|Hname].
    + by apply format_result_ok.
    + unfold format_result.
      by rewrite (getitem_lt _ _ 0%Z Hid), (getitem_ge _ _ Hname).
  - unfold format_result. by rewrite (getitem_ge _ _ Hid).
Qed.

Lemma format_results_outcome self a indices :
  traverse (format_result self) (zip indices (score_at a <$> indices))
  = if metadata_covers self indices
    then Ok (record_of self a <$> indices) else Raise IndexError.
Proof.
  rewrite traverse_zip_fmap.
  destruct (metadata_covers self indices) eqn:Hcov.
  - apply traverse_ok. intros i Hi. rewrite format_result_outcome.
    unfold metadata_covers in Hcov. rewrite forallb_forall in Hcov.
    by rewrite (Hcov i) by by apply list_elem_of_In.
  - apply traverse_raise.
    + intros i _. rewrite format_result_outcome. destruct (_ && _); eauto.
    + unfold metadata_covers in Hcov.
      apply not_true_iff_false in Hcov. rewrite forallb_forall in Hcov.
      apply Exists_exists.
      destruct (decide (Exists (λ i, (i <? length (game_ids self))%nat
                  && (i <? length (game_names self))%nat = false) indices))
        as [Hex|Hnex].
      * apply Exists_exists in Hex as (i & Hi & Hbad). exists i. split; [done|].
        by rewrite format_result_outcome, Hbad.
      * destruct Hcov. intros i Hi%list_elem_of_In.
        apply not_false_iff_true. intros Hbad. apply Hnex.
        apply Exists_exists. eauto.
Qed.

(** X6: a query that is not cleaned away cannot be scored against a
    matrix that has no game, or whose rows are not as wide as the query
    row: [recommend] raises [ValueError], whatever [top_n] is. *)
Theorem recommend_bad_shape self user_review (top_n : Z) :
  Py.is_empty (Py.strip (clean_text user_review)) = false →
  shapes_fit self user_review = false →
  recommend self user_review top_n = Raise ValueError.
Proof.
  intros Hne Hbad. unfold recommend. rewrite Hne.
  unfold transform_text, vectorizer_transform. rewrite fmap_cons, fmap_nil.
  fold (query_row self user_review).
  rewrite calculate_similarity_matrix_bad_shape; [done|].
  unfold shapes_fit in Hbad.
  destruct (0 <? length (game_vectors self))%nat,
    (0 <? length (query_row self user_review))%nat; done.
Qed.

Section RankingMore.
Hypothesis Hsort : argsort_spec.

(** X7: on shapes that fit, the one thing that can go wrong is the
    metadata: [recommend] returns the records of the games it picked when
    both metadata lists reach every picked row, and raises [IndexError]
    otherwise. *)
Theorem recommend_outcome self user_review (top_n : Z) :
  Py.is_empty (Py.strip (clean_text user_review)) = false →
  shapes_fit self user_review = true →
  recommend self user_review top_n
  = if metadata_covers self (top_indices self user_review top_n)
    then Ok (record_of self (similarities self user_review)
               <$> top_indices self user_review top_n)
    else Raise IndexError.
Proof.
  intros Hne (Hrows & Hcols & Hwidth)%shapes_fit_inv.
  unfold recommend. rewrite Hne.
  unfold transform_text, vectorizer_transform. rewrite fmap_cons, fmap_nil.
  fold (query_row self user_review).
  rewrite calculate_similarity_matrix_ok by done. cbn.
  fold (similarities self user_review).
  rewrite get_similarity_scores_ok; cbn.
  - apply format_results_outcome.
  - intros i Hi. by apply (find_top_matches_lt Hsort) in Hi.
Qed.

End RankingMore.
End RecommendMoreFacts.

Lemma get_all_games_lookup self i gid gname :
  game_ids self !! i = Some gid → game_names self !! i = Some gname →
  get_all_games self !! i
  = Some {| Listing.game_id := gid; Listing.game_name := gname |}.
Proof.
  intros Hid Hname. unfold get_all_games.
  rewrite list_lookup_fmap, lookup_zip_with, Hid, Hname. done.
Qed.

Lemma getitem_Ok {A} (l : list A) (i : nat) (x : A) :
  Py.getitem l i = Ok x → l !! i = Some x.
Proof. unfold Py.getitem. destruct (l !! i); by intros [= <-]. Qed.

Section RecommendOrder.
Context `{Nltk} `{Numpy}.

Lemma format_result_listed self entry r :
  format_result self entry = Ok r →
  {| Listing.game_id := game_id r; Listing.game_name := game_name r |}
    ∈ get_all_games self.
Proof.
  destruct entry as [idx score]. unfold format_result.
  destruct (Py.getitem (game_ids self) idx) as [gid|] eqn:Hid; [|done].
  destruct (Py.getitem (game_names self) idx) as [gname|] eqn:Hname; [|done].
  intros [= <-]. cbn.
  apply getitem_Ok in Hid, Hname.
  eapply list_elem_of_lookup_2. by apply get_all_games_lookup.
Qed.

(** X8: whatever [recommend] returns, each of its records is a game of
    the listing [get_all_games] gives: the identifier and the name come
    from the same position of the two metadata lists. *)
Theorem recommend_games_are_listed self user_review top_n recommendations :
  recommend self user_review top_n = Ok recommendations →
  Forall (λ r, {| Listing.game_id := game_id r;
                  Listing.game_name := game_name r |} ∈ get_all_games self)
         recommendations.
Proof.
  unfold recommend.
  destruct (Py.is_empty _); [intros [= <-]; constructor|].
  destruct (calculate_similarity_matrix _ _) as [sims|]; [|done]. cbn.
  destruct (get_similarity_scores _ _) as [scores|]; [|done]. cbn.
  apply traverse_Forall. intros entry r. apply format_result_listed.
Qed.

Section Order.
Hypothesis Hsort : argsort_spec.

Lemma find_top_matches_prefix a (k1 k2 : Z) :
  (0 ≤ k1 ≤ k2)%Z →
  find_top_matches a k1 = take (Z.to_nat k1) (find_top_matches a k2).
Proof.
  intros Hk. unfold find_top_matches.
  rewrite !slice_to_nonneg by lia. rewrite take_take.
  f_equal. lia.
Qed.

Lemma find_top_matches_negative a (top_n : Z) :
  (top_n < 0)%Z →
  find_top_matches a top_n
  = take (length a - Z.to_nat (- top_n))
         (find_top_matches a (Z.of_nat (length a))).
Proof.
  intros Hk. unfold find_top_matches, Py.slice_to.
  destruct (Z.ltb_spec top_n 0); [|lia].
  destruct (Z.ltb_spec (Z.of_nat (length a)) 0); [lia|].
  rewrite (length_descending Hsort), take_take. f_equal. lia.
Qed.

(** X9: asking for more games never changes the ones already given: for
    [0 <= k1 <= k2], the answer to [top_n = k1] is the first [k1] records
    of the answer to [top_n = k2]. *)
Theorem recommend_prefix self user_review (k1 k2 : Z) :
  well_formed self user_review = true →
  Py.is_empty (Py.strip (clean_text user_review)) = false →
  (0 ≤ k1 ≤ k2)%Z →
  ∃ recommendations,
    recommend self user_review k2 = Ok recommendations
    ∧ recommend self user_review k1 = Ok (take (Z.to_nat k1) recommendations).
Proof.
  intros Hwf Hne Hk. eexists. split; [by apply recommend_ranked|].
  rewrite recommend_ranked by done.
  by rewrite (find_top_matches_prefix _ k1 k2 Hk), fmap_take.
Qed.

(** X10: a negative [top_n] is not refused: the slice counts it from the
    end, so the answer is the full ranking without its last [-top_n]
    games (and is empty once [-top_n] reaches the corpus size). *)
Theorem recommend_negative_top_n_drops_last self user_review (top_n : Z) :
  well_formed self user_review = true →
  Py.is_empty (Py.strip (clean_text user_review)) = false →
  (top_n < 0)%Z →
  ∃ ranking,
    recommend self user_review (Z.of_nat (length (game_vectors self))) = Ok ranking
    ∧ length ranking = length (game_vectors self)
    ∧ recommend self user_review top_n
      = Ok (take (length (game_vectors self) - Z.to_nat (- top_n)) ranking).
Proof.
  intros Hwf Hne Hk. eexists. split; [by apply recommend_ranked|]. split.
  - rewrite length_fmap, (length_find_top_matches Hsort) by lia.
    rewrite length_similarities. lia.
  - rewrite recommend_ranked by done.
    rewrite (find_top_matches_negative _ top_n Hk), fmap_take.
    by rewrite !length_similarities.
Qed.

(** X11: for every [top_n], negative ones included, the records are those
    of pairwise distinct games, in non-increasing order of score, and no
    game that is left out has a higher score than one that is returned. *)
Theorem recommend_best_distinct self user_review (top_n : Z) :
  well_formed self user_review = true →
  Py.is_empty (Py.strip (clean_text user_review)) = false →
  ∃ indices,
    recommend self user_review top_n
    = Ok (record_of self (similarities self user_review) <$> indices)
    ∧ NoDup indices
    ∧ (∀ i, i ∈ indices → i < length (game_vectors self))
    ∧ StronglySorted (score_ge (similarities self user_review)) indices
    ∧ (∀ i j, i ∈ indices → j < length (game_vectors self) → j ∉ indices →
         (score_at (similarities self user_review) j
          <= score_at (similarities self user_review) i)%Q).
Proof.
  intros Hwf Hne.
  exists (find_top_matches (similarities self user_review) top_n).
  split; [by apply recommend_ranked|].
  split; [apply (find_top_matches_NoDup Hsort)|].
  split.
  { intros i Hi%(find_top_matches_lt Hsort). by rewrite length_similarities in Hi. }
  split; [apply (find_top_matches_sorted Hsort)|].
  intros i j Hi Hj Hout.
  apply (find_top_matches_dominates Hsort _ top_n); [done| |done].
  by rewrite length_similarities.
Qed.

(** X12: with [top_n >= 1] the first record is a best match: no game of
    the corpus has a higher score than the one returned first. *)
Theorem recommend_first_is_best self user_review (top_n : Z) :
  well_formed self user_review = true →
  Py.is_empty (Py.strip (clean_text user_review)) = false →
  (1 ≤ top_n)%Z →
  ∃ first others,
    recommend self user_review top_n = Ok (first :: others)
    ∧ ∀ i, i < length (game_vectors self) →
        (score_at (similarities self user_review) i <= similarity_score first)%Q.
Proof.
  intros Hwf Hne Hk.
  pose proof (well_formed_inv _ _ Hwf) as (Hrows & _).
  apply Nat.ltb_lt in Hrows.
  set (a := similarities self user_review).
  pose proof (length_find_top_matches Hsort a top_n ltac:(lia)) as Hlen.
  unfold a in Hlen at 2. rewrite length_similarities in Hlen.
  destruct (find_top_matches a top_n) as [|i0 rest] eqn:Htop;
    [cbn in Hlen; lia|].
  exists (record_of self a i0), (record_of self a <$> rest).
  split.
  { rewrite recommend_ranked by done. fold a. by rewrite Htop. }
  intros j Hj. cbn.
  pose proof (find_top_matches_sorted Hsort a top_n) as Hs.
  rewrite Htop in Hs. apply StronglySorted_inv in Hs as [_ Hhd].
  destruct (decide (j = i0)) as [->|Hne0]; [apply Qle_refl|].
  destruct (decide (j ∈ rest)) as [Hin|Hout].
  - rewrite Forall_forall in Hhd. by apply Hhd.
  - apply (find_top_matches_dominates Hsort a top_n).
    + rewrite Htop. apply list_elem_of_here.
    + unfold a. by rewrite length_similarities.
    + rewrite Htop. by apply not_elem_of_cons.
Qed.

End Order.
End RecommendOrder.

(** ** app.py *)

Lemma length_zero_is_empty s : (String.length s =? 0)%nat = Py.is_empty s.
Proof. by destruct s. Qed.

Lemma limit_top_n_range_aux (top_n : App.json_value) :
  (1 ≤ App.limit_top_n top_n ≤ MAX_TOP_N)%Z.
Proof.
  unfold App.limit_top_n, MAX_TOP_N, DEFAULT_TOP_N.
  destruct (App.as_int top_n) as [z|]; [|cbn; lia].
  destruct (Z.ltb_spec z 1); [cbn; lia|].
  destruct (Z.ltb_spec 20 z); lia.
Qed.

(** X13: whatever JSON value a request carries as [top_n], the number the
    handler passes on lies between 1 and [MAX_TOP_N]; an integer already in
    that range is passed on unchanged. *)
Theorem limit_top_n_range (top_n : App.json_value) :
  (1 ≤ App.limit_top_n top_n ≤ MAX_TOP_N)%Z
  ∧ ∀ z, App.as_int top_n = Some z → (1 ≤ z ≤ MAX_TOP_N)%Z →
         App.limit_top_n top_n = z.
Proof.
  split; [apply limit_top_n_range_aux|].
  unfold App.limit_top_n, MAX_TOP_N, DEFAULT_TOP_N.
  intros z -> Hz.
  destruct (Z.ltb_spec z 1); [lia|].
  destruct (Z.ltb_spec 20 z); lia.
Qed.

Section AppFacts.
Context `{Nltk} `{Numpy}.

Lemma api_recommend_rejects recommender data :
  App.request_ok data = false →
  App.status_code (App.recommend (Some recommender) data) = 400%Z.
Proof.
  unfold App.request_ok, App.review_of, App.recommend.
  destruct data as [data|]; [|done].
  destruct (bool_decide (size data = 0)); [done|].
  destruct (data !! "review") as [[[]|]|]; try done.
  rewrite length_zero_is_empty. intros Hblank%negb_false_iff. by rewrite Hblank.
Qed.

Lemma api_recommend_passes recommender data review :
  App.review_of data = Some review →
  Py.is_empty (Py.strip review) = false →
  App.recommend (Some recommender) data
  = match recommend recommender (PyStr review) (App.top_n_of data) with
    | Raise e => App.ServerError e
    | Ok [] => App.NoMatch review
    | Ok recommendations =>
        App.Recommendations review (length recommendations) recommendations
    end.
Proof.
  unfold App.review_of, App.recommend, App.top_n_of.
  destruct data as [data|]; [|done].
  destruct (data !! "review") as [[[]|]|] eqn:Hreview; try done.
  intros [= ->] Hne.
  destruct (bool_decide_reflect (size data = 0)) as [Hsize|_].
  - apply map_size_empty_inv in Hsize. subst data. by rewrite lookup_empty in Hreview.
  - by rewrite length_zero_is_empty, Hne.
Qed.

Section Served.
Hypothesis Hsort : argsort_spec.

(** X14: on a loaded model whose artifacts fit, the endpoint never
    answers 500 or 503: it answers 400 to a request without a review that
    is a string with something else than whitespace in it, and 200 to
    every other request. *)
Theorem api_recommend_status recommender data :
  (∀ review, App.review_of data = Some review →
             well_formed recommender (PyStr review) = true) →
  App.status_code (App.recommend (Some recommender) data)
  = if App.request_ok data then 200%Z else 400%Z.
Proof.
  intros Hwf. destruct (App.request_ok data) eqn:Hok;
    [|by apply api_recommend_rejects].
  unfold App.request_ok in Hok.
  destruct (App.review_of data) as [review|] eqn:Hreview; [|done].
  apply negb_true_iff in Hok.
  rewrite (api_recommend_passes _ _ review) by done.
  destruct (Py.is_empty (Py.strip (clean_text (PyStr review)))) eqn:Hclean.
  - apply is_empty_true in Hclean.
    by rewrite recommend_nothing_left by done.
  - rewrite recommend_ranked by auto.
    by destruct (_ <$> _).
Qed.

(** X15: what a request that is let through gets, on a loaded model whose
    artifacts fit: "no match" when the review is cleaned away, and otherwise
    the smaller of the limited [top_n] and the corpus size many records,
    which is at least 1 and at most [MAX_TOP_N]. *)
Theorem api_recommend_count recommender data review :
  well_formed recommender (PyStr review) = true →
  App.review_of data = Some review →
  Py.is_empty (Py.strip review) = false →
  if Py.is_empty (Py.strip (clean_text (PyStr review)))
  then App.recommend (Some recommender) data = App.NoMatch review
  else ∃ recommendations,
         App.recommend (Some recommender) data
         = App.Recommendations review (length recommendations) recommendations
         ∧ recommend recommender (PyStr review) (App.top_n_of data)
           = Ok recommendations
         ∧ length recommendations
           = Z.to_nat (App.top_n_of data) `min` length (game_vectors recommender)
         ∧ (1 ≤ Z.of_nat (length recommendations) ≤ MAX_TOP_N)%Z.
Proof.
  intros Hwf Hreview Hne.
  rewrite (api_recommend_passes _ _ review) by done.
  destruct (Py.is_empty (Py.strip (clean_text (PyStr review)))) eqn:Hclean.
  - apply is_empty_true in Hclean. by rewrite recommend_nothing_left by done.
  - assert (1 ≤ App.top_n_of data ≤ MAX_TOP_N)%Z as Hrange.
    { unfold App.top_n_of. destruct data as [data|]; [|done].
      apply limit_top_n_range_aux. }
    pose proof (well_formed_inv _ _ Hwf) as (Hrows%Nat.ltb_lt & _).
    rewrite recommend_ranked by done.
    set (top := find_top_matches _ _).
    assert (length top = Z.to_nat (App.top_n_of data)
                         `min` length (game_vectors recommender)) as Hlen.
    { unfold top. rewrite (length_find_top_matches Hsort) by lia.
      by rewrite length_similarities. }
    exists (record_of recommender (similarities recommender (PyStr review)) <$> top).
    rewrite length_fmap.
    split; [|split; [done|split; [done|unfold MAX_TOP_N in *; lia]]].
    destruct top as [|i rest]; [cbn in Hlen; unfold MAX_TOP_N in *; lia|].
    done.
Qed.

End Served.
End AppFacts.

(** ** Pages of the listing *)

Lemma slice_nonneg {A} (l : list A) (start stop : Z) :
  (0 ≤ start ≤ stop)%Z →
  PySlice.slice l start stop
  = take (Z.to_nat stop - Z.to_nat start) (drop (Z.to_nat start) l).
Proof.
  intros Hb. unfold PySlice.slice, PySlice.clip.
  destruct (Z.ltb_spec start 0); [lia|]. destruct (Z.ltb_spec stop 0); [lia|].
  destruct (decide (Z.to_nat start < length l)) as [Hlt|Hge].
  - rewrite (Nat.min_l (Z.to_nat start)) by lia.
    destruct (decide (Z.to_nat stop ≤ length l)%nat) as [Hle|Hgt].
    + by rewrite (Nat.min_l (Z.to_nat stop)) by lia.
    + rewrite (Nat.min_r (Z.to_nat stop)) by lia.
      by rewrite !take_ge by (rewrite length_drop; lia).
  - rewrite !drop_ge by lia. by rewrite !take_nil.
Qed.

Lemma slice_to_zero {A} (l : list A) (start : Z) : PySlice.slice l start 0 = [].
Proof. unfold PySlice.slice. by cbn. Qed.

Lemma api_games_page recommender (page per_page : Z) :
  (1 ≤ page)%Z → (0 ≤ per_page)%Z →
  App.page_games (Some recommender) (Some page) (Some per_page)
  = take (Z.to_nat per_page)
         (drop (Z.to_nat (page - 1) * Z.to_nat per_page)
               (get_all_games recommender)).
Proof.
  intros Hp Hpp. unfold App.page_games, App.get_games. cbn.
  rewrite slice_nonneg by nia. f_equal; [|f_equal]; nia.
Qed.

(** X16: the pages of [GET /api/games] cut the listing into consecutive
    blocks: for a page size of at least 1, pages 1 to [k] put end to end
    are the first [k * per_page] games, each once and in order, and the
    whole listing once [k * per_page] reaches its length. *)
Theorem api_games_pages_partition recommender (per_page : Z) (k : nat) :
  (1 ≤ per_page)%Z →
  concat ((λ p, App.page_games (Some recommender) (Some (Z.of_nat p)) (Some per_page))
            <$> seq 1 k)
  = take (k * Z.to_nat per_page) (get_all_games recommender)
  ∧ ((length (get_all_games recommender) ≤ k * Z.to_nat per_page)%nat →
     concat ((λ p, App.page_games (Some recommender) (Some (Z.of_nat p)) (Some per_page))
               <$> seq 1 k)
     = get_all_games recommender).
Proof.
  intros Hpp.
  assert (concat ((λ p, App.page_games (Some recommender) (Some (Z.of_nat p))
                          (Some per_page)) <$> seq 1 k)
          = take (k * Z.to_nat per_page) (get_all_games recommender)) as Heq.
  { induction k as [|k IH]; [done|].
    rewrite seq_S, fmap_app, concat_app, IH. cbn [fmap list_fmap concat].
    rewrite app_nil_r, api_games_page by lia.
    replace (Z.to_nat (Z.of_nat (1 + k) - 1)) with k by lia.
    rewrite take_take_drop. f_equal. lia. }
  split; [done|]. intros Hall. rewrite Heq. by apply take_ge.
Qed.

(** X17: a page number below 1 is not refused. Page 0 is always empty,
    and a negative page counts from the end of the listing: with a page
    size of at least 1 it is the block of that size that ends
    [-page * per_page] games before the end. *)
Theorem api_games_page_below_one recommender (page per_page : Z) :
  (page = 0%Z →
   App.page_games (Some recommender) (Some page) (Some per_page) = [])
  ∧ ((page < 0)%Z → (1 ≤ per_page)%Z →
     let n := length (get_all_games recommender) in
     let stop := n - Z.to_nat (- page * per_page) in
     let start := n - Z.to_nat ((1 - page) * per_page) in
     App.page_games (Some recommender) (Some page) (Some per_page)
     = take (stop - start) (drop start (get_all_games recommender))).
Proof.
  split.
  - intros ->. unfold App.page_games, App.get_games.
    cbn [default from_option App.games]. unfold id.
    replace ((0 - 1) * per_page + per_page)%Z with 0%Z by lia.
    apply slice_to_zero.
  - intros Hp Hpp n stop start. unfold App.page_games, App.get_games.
    cbn [default from_option App.games]. unfold id, PySlice.slice, PySlice.clip.
    fold n.
    destruct (Z.ltb_spec ((page - 1) * per_page) 0); [|nia].
    destruct (Z.ltb_spec ((page - 1) * per_page + per_page) 0); [|nia].
    f_equal; [|f_equal]; unfold stop, start; nia.
Qed.

(** ** profile.py *)

Lemma split_scan_app_space a c b :
  Py.isspace c = true →
  Py.split_scan (a +:+ String c b)
  = ((Py.split_scan a).1, (Py.split_scan a).2 ++ Py.split b).
Proof.
  intros Hc. induction a as [|x a IH].
  - rewrite append_empty_l. by apply split_scan_space.
  - rewrite append_cons. cbn [Py.split_scan]. rewrite IH.
    destruct (Py.split_scan a) as [w ws]. cbn [fst snd].
    destruct (Py.isspace x); [|done]. cbn [fst snd]. f_equal.
    unfold Py.emit. by destruct (Py.is_empty w).
Qed.

(** The words of two strings put together with whitespace in between are
    the words of the first followed by the words of the second. *)
Lemma split_app_space a c b :
  Py.isspace c = true →
  Py.split (a +:+ String c b) = Py.split a ++ Py.split b.
Proof.
  intros Hc. unfold Py.split at 1 2. rewrite (split_scan_app_space a c b Hc).
  destruct (Py.split_scan a) as [w ws]. cbn [fst snd].
  unfold Py.emit. by destruct (Py.is_empty w).
Qed.

Section ProfileFacts.
Context `{Nltk}.

Lemma bare_app a b : bare (a +:+ b) = bare a +:+ bare b.
Proof.
  induction a as [|c a IH]; [done|].
  rewrite append_cons, !bare_cons, IH.
  by destruct (Py.class_az_space (Py.lower_char c)).
Qed.

Lemma cleaned_words_app_space a b :
  cleaned_words (a +:+ " " +:+ b) = cleaned_words a ++ cleaned_words b.
Proof.
  unfold cleaned_words.
  change (a +:+ " " +:+ b) with (a +:+ String " "%char b).
  rewrite bare_app.
  rewrite (bare_cons_space " "%char b) by done.
  rewrite split_app_space by done.
  by rewrite filter_app, fmap_app.
Qed.

(** X18: the genres of a profile act as further query words: the cleaned
    profile is the cleaned preferences followed by the cleaned genres, and
    without genres ([None] or an empty list) it is the cleaned
    preferences. *)
Theorem create_user_profile_cleaned (preferences : string)
    (genres : option (list string)) :
  clean_text (PyStr (Profile.create_user_profile preferences genres))
  = Py.join " " (cleaned_words preferences
                 ++ cleaned_words (Py.join " " (default [] genres))).
Proof.
  rewrite clean_text_str. fold (cleaned_words (Profile.create_user_profile preferences genres)).
  f_equal. unfold Profile.create_user_profile.
  destruct genres as [[|genre more]|]; cbn [default from_option]; unfold id.
  - by rewrite app_nil_r.
  - apply cleaned_words_app_space.
  - by rewrite app_nil_r.
Qed.

End ProfileFacts.

Lemma add_ranking_lookup recommendations i rec :
  recommendations !! i = Some rec →
  Profile.add_ranking recommendations !! i
  = Some {| Profile.recommendation := rec;
            Profile.rank := S i;
            Profile.recommendation_level := Profile.level_of (S i) |}.
Proof.
  intros Hi. unfold Profile.add_ranking. by rewrite list_lookup_imap, Hi.
Qed.

Lemma length_add_ranking recommendations :
  length (Profile.add_ranking recommendations) = length recommendations.
Proof. unfold Profile.add_ranking. apply length_imap. Qed.

Lemma add_ranking_lookup_inv recommendations i r :
  Profile.add_ranking recommendations !! i = Some r →
  Profile.rank r = S i ∧ Profile.recommendation_level r = Profile.level_of (S i)
  ∧ recommendations !! i = Some (Profile.recommendation r).
Proof.
  unfold Profile.add_ranking. rewrite list_lookup_imap.
  destruct (recommendations !! i) as [rec|]; [|done].
  by intros [= <-].
Qed.

Lemma Forall_take_drop_lookup {A} (P : nat → A → Prop) (l : list A) (s m : nat) :
  (∀ i x, l !! i = Some x → s ≤ i < s + m → P i x) →
  Forall (λ x, ∃ i, l !! i = Some x ∧ P i x) (take m (drop s l)).
Proof.
  intros HP. apply Forall_forall. intros x Hx.
  apply list_elem_of_lookup in Hx as [j Hj].
  apply lookup_take_Some in Hj as [Hj Hlt]. rewrite lookup_drop in Hj.
  exists (s + j). split; [done|]. apply HP; [done|lia].
Qed.

(** X19: the ranks [get_top_recommendations] adds are 1, 2, ... in the
    order of the list, and the three blocks [display_recommendations]
    prints are its first 100 entries, each once and in order, every entry
    under the heading of its own [recommendation_level]. *)
Theorem display_matches_levels (recommendations : list Recommendation) :
  let ranked := Profile.add_ranking recommendations in
  let '(top, middle, rest) := Profile.display_recommendations ranked in
  Profile.rank <$> ranked = seq 1 (length recommendations)
  ∧ top ++ middle ++ rest = take 100 ranked
  ∧ Forall (λ r, Profile.recommendation_level r = "Highly Recommended") top
  ∧ Forall (λ r, Profile.recommendation_level r = "Recommended") middle
  ∧ Forall (λ r, Profile.recommendation_level r = "Least Recommended") rest.
Proof.
  intros ranked. unfold Profile.display_recommendations.
  rewrite !slice_nonneg by lia.
  change (Z.to_nat 10 - Z.to_nat 0) with 10.
  change (Z.to_nat 50 - Z.to_nat 10) with 40.
  change (Z.to_nat 100 - Z.to_nat 50) with 50.
  change (Z.to_nat 0) with 0. change (Z.to_nat 10) with 10.
  change (Z.to_nat 50) with 50. rewrite drop_0.
  assert (∀ s m level,
            (∀ i, s ≤ i < s + m → Profile.level_of (S i) = level) →
            Forall (λ r, Profile.recommendation_level r = level)
                   (take m (drop s ranked))) as Hblock.
  { intros s m level Hlevel.
    eapply Forall_impl;
      [apply (Forall_take_drop_lookup
                (λ i r, Profile.recommendation_level r = level))|].
    - intros i r Hr Hi. apply add_ranking_lookup_inv in Hr as (_ & -> & _).
      by apply Hlevel.
    - by intros r (i & _ & Hr). }
  split; [|split; [|split; [|split]]].
  - apply list_eq. intros i. rewrite list_lookup_fmap.
    destruct (decide (i < length recommendations)) as [Hi|Hi].
    + destruct (lookup_lt_is_Some_2 _ _ Hi) as [rec Hrec].
      unfold ranked. rewrite (add_ranking_lookup _ _ _ Hrec). cbn.
      by rewrite lookup_seq_lt.
    + rewrite lookup_seq_ge by lia.
      unfold ranked. rewrite lookup_ge_None_2; [done|].
      rewrite length_add_ranking. lia.
  - destruct (Nat.ltb_spec 50 (length ranked)) as [Hlong|Hshort].
    + rewrite app_assoc, (take_take_drop ranked 10 40).
      change (10 + 40) with 50. by rewrite (take_take_drop ranked 50 50).
    + rewrite app_nil_r, (take_take_drop ranked 10 40).
      by rewrite !take_ge by lia.
  - apply (Hblock 0 10). intros i Hi. unfold Profile.level_of.
    destruct (Nat.leb_spec (S i) 10); [done|lia].
  - apply (Hblock 10 40). intros i Hi. unfold Profile.level_of.
    destruct (Nat.leb_spec (S i) 10); [lia|].
    destruct (Nat.leb_spec (S i) 50); [done|lia].
  - destruct (50 <? length ranked)%nat; [|done].
    apply (Hblock 50 50). intros i Hi. unfold Profile.level_of.
    destruct (Nat.leb_spec (S i) 10); [lia|].
    destruct (Nat.leb_spec (S i) 50); [lia|done].
Qed.

(** ** streamlit_app.py *)

Lemma dict_eqb_refl (a : Streamlit.entry) : Streamlit.dict_eqb a a = true.
Proof.
  unfold Streamlit.dict_eqb.
  rewrite Z.eqb_refl, String.eqb_refl, !bool_decide_eq_true_2 by done.
  assert (∀ q, Qeq_bool q q = true) as Hq by (intros q; by apply Qeq_bool_iff).
  by rewrite !Hq.
Qed.

Lemma dict_eqb_rank (a b : Streamlit.entry) :
  Streamlit.rank a ≠ Streamlit.rank b → Streamlit.dict_eqb a b = false.
Proof.
  intros Hne. unfold Streamlit.dict_eqb.
  rewrite (bool_decide_eq_false_2 _ Hne). by rewrite andb_false_r.
Qed.

Lemma index_from_first start l x k y :
  l !! k = Some y →
  Streamlit.dict_eqb y x = true →
  (∀ i z, i < k → l !! i = Some z → Streamlit.dict_eqb z x = false) →
  Streamlit.index_from start l x = Ok (start + k).
Proof.
  revert start k. induction l as [|z l IH]; intros start k Hk Heq Hbefore; [done|].
  cbn [Streamlit.index_from]. destruct k as [|k].
  - cbn in Hk. injection Hk as ->. rewrite Heq. f_equal. lia.
  - rewrite (Hbefore 0 z) by (done || lia).
    rewrite (IH (S start) k); [f_equal; lia|done|done|].
    intros i w Hi Hw. apply (Hbefore (S i) w); [lia|done].
Qed.

Section StreamlitRanks.
Variable recs : list Recommendation.

(** The list when the loop is about to visit position [k]: the entries
    before [k] carry their rank, the others are as they came. *)
Let state (k : nat) : list Streamlit.entry :=
  imap (λ i rec, if (i <? k)%nat then Streamlit.categorized i rec
                 else Streamlit.fresh rec) recs.

Lemma state_lookup k i rec :
  recs !! i = Some rec →
  state k !! i = Some (if (i <? k)%nat then Streamlit.categorized i rec
                       else Streamlit.fresh rec).
Proof. intros Hi. unfold state. by rewrite list_lookup_imap, Hi. Qed.

Lemma state_step k :
  k < length recs →
  Streamlit.add_category (state k) k = Ok (state (S k)).
Proof.
  intros Hk. destruct (lookup_lt_is_Some_2 _ _ Hk) as [rec Hrec].
  unfold Streamlit.add_category.
  rewrite (state_lookup k k rec Hrec), Nat.ltb_irrefl.
  unfold Streamlit.index.
  rewrite (index_from_first 0 (state k) (Streamlit.fresh rec) k (Streamlit.fresh rec)).
  - cbn. f_equal. apply list_eq. intros i.
    destruct (decide (i = k)) as [->|Hne].
    + rewrite list_lookup_insert_eq
        by (unfold state; rewrite length_imap; lia).
      rewrite (state_lookup (S k) k rec Hrec).
      destruct (Nat.ltb_spec k (S k)); [|lia]. done.
    + rewrite list_lookup_insert_ne by done.
      unfold state. rewrite !list_lookup_imap.
      destruct (recs !! i) as [r|]; [|done].
      cbn [fmap option_fmap option_map].
      destruct (Nat.ltb_spec i k), (Nat.ltb_spec i (S k)); (done || lia).
  - rewrite (state_lookup k k rec Hrec), Nat.ltb_irrefl. done.
  - apply dict_eqb_refl.
  - intros i z Hi Hz.
    assert (i < length recs) as Hlt by lia.
    destruct (lookup_lt_is_Some_2 _ _ Hlt) as [r Hr].
    rewrite (state_lookup k i r Hr) in Hz.
    destruct (Nat.ltb_spec i k); [|lia]. injection Hz as <-.
    by apply dict_eqb_rank.
Qed.

Lemma for_each_from k m :
  k + m = length recs →
  Streamlit.for_each (seq k m) (state k) = Ok (state (length recs)).
Proof.
  revert k. induction m as [|m IH]; intros k Hkm.
  - cbn. f_equal. f_equal. lia.
  - cbn [seq Streamlit.for_each]. rewrite state_step by lia. cbn.
    apply IH. lia.
Qed.

(** X20: the loop that looks every rank up with [list.index] while it
    writes into the list still numbers the entries 1, 2, ... in order,
    equal records included: an entry already visited has a ['rank'] key and
    so is not equal to one not visited yet. No [ValueError] is raised. *)
Theorem add_categories_ranks_by_position :
  Streamlit.add_categories (Streamlit.fresh <$> recs)
  = Ok (imap Streamlit.categorized recs).
Proof.
  unfold Streamlit.add_categories. rewrite length_fmap.
  assert (Streamlit.fresh <$> recs = state 0) as ->.
  { unfold state. apply list_eq. intros i.
    rewrite list_lookup_fmap, list_lookup_imap. by destruct (recs !! i). }
  rewrite (for_each_from 0 (length recs)) by done. f_equal.
  unfold state. apply list_eq. intros i. rewrite !list_lookup_imap.
  destruct (recs !! i) as [r|] eqn:Hr; [|done].
  cbn [fmap option_fmap option_map].
  apply lookup_lt_Some in Hr.
  destruct (Nat.ltb_spec i (length recs)); [done|lia].
Qed.

End StreamlitRanks.

(** ** Reviews that differ in what is cleaned away *)

Section ReviewForm.
Context `{Nltk} `{Numpy}.

(** X22: the recommendations do not depend on letter case, nor on the
    digits and punctuation of the review: a review, its lowercase form, and
    its lowercase form rid of every character outside [a-z] and whitespace
    ([bare]) get the same answer, for every model and [top_n]. *)
Theorem recommend_ignores_case_and_punctuation self (s : string) (top_n : Z) :
  recommend self (PyStr (Py.lower s)) top_n = recommend self (PyStr s) top_n
  ∧ recommend self (PyStr (bare s)) top_n = recommend self (PyStr s) top_n.
Proof.
  unfold recommend. rewrite !clean_text_str. by rewrite bare_lower, bare_idem.
Qed.

End ReviewForm.

(** ** Ranks and scores *)

Lemma StronglySorted_lookup_lt {A} (R : relation A) (l : list A) i j x y :
  StronglySorted R l → l !! i = Some x → l !! j = Some y → i < j → R x y.
Proof.
  intros Hs. revert i j. induction Hs as [|z l Hs IH Hall]; intros i j Hi Hj Hij.
  - done.
  - destruct j as [|j]; [lia|]. cbn in Hj. destruct i as [|i].
    + cbn in Hi. injection Hi as ->. rewrite Forall_forall in Hall.
      apply Hall. by eapply list_elem_of_lookup_2.
    + cbn in Hi. apply (IH i j); [done|done|lia].
Qed.

Section RankedScores.
Context `{Nltk} `{Numpy}.
Hypothesis Hsort : argsort_spec.

(** X23: in what [get_top_recommendations] returns, the ranks are
    1, 2, ... and a better rank never goes with a lower score. *)
Theorem get_top_recommendations_ranked recommender (user_profile : string)
    (top_n : Z) :
  well_formed recommender (PyStr user_profile) = true →
  Py.is_empty (Py.strip (clean_text (PyStr user_profile))) = false →
  ∃ ranked,
    Profile.get_top_recommendations recommender user_profile top_n = Ok ranked
    ∧ Profile.rank <$> ranked = seq 1 (length ranked)
    ∧ ∀ r1 r2, r1 ∈ ranked → r2 ∈ ranked →
        Profile.rank r1 < Profile.rank r2 →
        (similarity_score (Profile.recommendation r2)
         <= similarity_score (Profile.recommendation r1))%Q.
Proof.
  intros Hwf Hne. unfold Profile.get_top_recommendations.
  rewrite recommend_ranked by done. cbn [mbind result_mbind result_bind].
  set (a := similarities recommender (PyStr user_profile)).
  set (top := find_top_matches a top_n).
  eexists. split; [done|]. split.
  - rewrite length_add_ranking. apply list_eq. intros i.
    rewrite list_lookup_fmap.
    destruct ((record_of recommender a <$> top) !! i) as [rec|] eqn:Hrec.
    + rewrite (add_ranking_lookup _ _ _ Hrec). cbn.
      apply lookup_lt_Some in Hrec. by rewrite lookup_seq_lt.
    + apply lookup_ge_None in Hrec. rewrite lookup_seq_ge by lia.
      rewrite lookup_ge_None_2; [done|]. by rewrite length_add_ranking.
  - intros r1 r2 [i Hi]%list_elem_of_lookup [j Hj]%list_elem_of_lookup Hlt.
    apply add_ranking_lookup_inv in Hi as (Hr1 & _ & Hi).
    apply add_ranking_lookup_inv in Hj as (Hr2 & _ & Hj).
    rewrite list_lookup_fmap in Hi, Hj.
    destruct (top !! i) as [x|] eqn:Hx; [|done].
    destruct (top !! j) as [y|] eqn:Hy; [|done].
    cbn in Hi, Hj. injection Hi as Hi. injection Hj as Hj.
    rewrite <- Hi, <- Hj. cbn.
    apply (StronglySorted_lookup_lt (score_ge a) top i j x y);
      [apply (find_top_matches_sorted Hsort)|done|done|lia].
Qed.

End RankedScores.

(** ** Scores of the all-zero row *)

(** X21: the all-zero row is not divided by its norm: its similarity with
    any row of its width is computed, without an error, and is zero. *)
Theorem calculate_similarity_zero `{Numpy} (u v : list Q) :
  all_zero u = true →
  0 < length u →
  length v = length u →
  ∃ score, calculate_similarity [u] [v] = Ok score ∧ (score == 0)%Q.
Proof.
  intros Hzero Hpos Hlen.
  exists (dot (normalize_row u) (normalize_row v)). split.
  - unfold calculate_similarity, cosine_similarity, check_pairwise_arrays.
    cbn [same_width forallb]. rewrite Hlen, Nat.eqb_refl.
    destruct (Nat.ltb_spec 0 (length u)); [done|lia].
  - rewrite (normalize_row_zero u Hzero). by apply dot_zero_l.
Qed.

(** ** The further properties on the sample models *)

Lemma wordnet_lemma_word w :
  PyMore.is_word w = true → PyMore.is_word (lemmatize w) = true.
Proof.
  intros Hw. cbn. unfold wordnet_lemma.
  repeat (destruct (String.eqb w _); [done|]). done.
Qed.

Lemma wordnet_lemma_nonempty w :
  PyMore.is_word w = true → Py.is_empty (lemmatize w) = false.
Proof. intros Hw%wordnet_lemma_word. by apply is_word_nonempty. Qed.

Lemma sample_well_formed review : well_formed games (PyStr review) = true.
Proof. reflexivity. Qed.

Lemma clean_text_empty_iff_witness :
  clean_text (PyStr "To be, or not to be?") = ""
  ↔ forallb stopword_or_punctuation (Py.split "To be, or not to be?") = true.
Proof.
  apply (clean_text_empty_iff "To be, or not to be?").
  apply wordnet_lemma_nonempty.
Defined.

Lemma clean_text_is_word_list_witness :
  Py.split (clean_text (PyStr "I love  Shooters, and 3 puzzles!"))
  = lemmatize <$> filter (λ w, w ∉ stop_words)
                         (Py.split (bare "I love  Shooters, and 3 puzzles!"))
  ∧ Py.strip (clean_text (PyStr "I love  Shooters, and 3 puzzles!"))
    = clean_text (PyStr "I love  Shooters, and 3 puzzles!").
Proof.
  apply (clean_text_is_word_list "I love  Shooters, and 3 puzzles!").
  apply wordnet_lemma_word.
Defined.

Lemma calculate_similarity_matrix_pointwise_witness :
  calculate_similarity_matrix [[0; 1; 0; 0]%Q] (game_vectors games)
  = Ok [20 # 25; 0; 0]%Q
  ∧ game_vectors games !! 0 = Some [3 # 5; 4 # 5; 0; 0]%Q
  ∧ length [20 # 25; 0; 0]%Q = length (game_vectors games)
  ∧ ∃ score, [20 # 25; 0; 0]%Q !! 0 = Some score
             ∧ calculate_similarity [[0; 1; 0; 0]%Q] [[3 # 5; 4 # 5; 0; 0]%Q]
               = Ok score.
Proof.
  split; [vm_compute; reflexivity|]. split; [reflexivity|].
  apply (calculate_similarity_matrix_pointwise
           [0; 1; 0; 0]%Q (game_vectors games) [20 # 25; 0; 0]%Q 0
           [3 # 5; 4 # 5; 0; 0]%Q).
  - vm_compute. reflexivity.
  - reflexivity.
Defined.

Lemma recommend_bad_shape_witness :
  Py.is_empty (Py.strip (clean_text (PyStr "shooters!"))) = false
  ∧ shapes_fit Fixtures.no_games (PyStr "shooters!") = false
  ∧ recommend Fixtures.no_games (PyStr "shooters!") 0 = Raise ValueError.
Proof.
  split; [reflexivity|]. split; [reflexivity|].
  apply (recommend_bad_shape Fixtures.no_games (PyStr "shooters!") 0);
    reflexivity.
Defined.

Lemma recommend_outcome_witness :
  shapes_fit Fixtures.short_metadata (PyStr "shooters!") = true
  ∧ metadata_covers Fixtures.short_metadata
      (top_indices Fixtures.short_metadata (PyStr "shooters!") 1) = true
  ∧ metadata_covers Fixtures.short_metadata
      (top_indices Fixtures.short_metadata (PyStr "shooters!") 2) = false
  ∧ recommend Fixtures.short_metadata (PyStr "shooters!") 2
    = if metadata_covers Fixtures.short_metadata
           (top_indices Fixtures.short_metadata (PyStr "shooters!") 2)
      then Ok (record_of Fixtures.short_metadata
                 (similarities Fixtures.short_metadata (PyStr "shooters!"))
                 <$> top_indices Fixtures.short_metadata (PyStr "shooters!") 2)
      else Raise IndexError.
Proof.
  split; [reflexivity|]. split; [reflexivity|]. split; [reflexivity|].
  apply (recommend_outcome argsort_stable_spec Fixtures.short_metadata
           (PyStr "shooters!") 2); reflexivity.
Defined.

Lemma recommend_games_are_listed_witness :
  Forall (λ r, {| Listing.game_id := game_id r;
                  Listing.game_name := game_name r |} ∈ get_all_games games)
    [ {| game_id := 379720; game_name := "Doom";
         similarity_score := 20 # 25; match_percentage := 2000 # 25 |};
      {| game_id := 1672970; game_name := "Minecraft";
         similarity_score := 0; match_percentage := 0 |} ].
Proof.
  apply (recommend_games_are_listed games (PyStr "shooters!") 2).
  vm_compute. reflexivity.
Defined.

Lemma recommend_prefix_witness :
  ∃ recommendations,
    recommend games (PyStr "shooters!") 3 = Ok recommendations
    ∧ recommend games (PyStr "shooters!") 1 = Ok (take 1 recommendations).
Proof.
  apply (recommend_prefix argsort_stable_spec games (PyStr "shooters!") 1 3).
  - reflexivity.
  - reflexivity.
  - lia.
Defined.

Lemma recommend_negative_top_n_drops_last_witness :
  ∃ ranking,
    recommend games (PyStr "shooters!") 3 = Ok ranking
    ∧ length ranking = 3
    ∧ recommend games (PyStr "shooters!") (-1) = Ok (take 2 ranking).
Proof.
  apply (recommend_negative_top_n_drops_last argsort_stable_spec games
           (PyStr "shooters!") (-1)).
  - reflexivity.
  - reflexivity.
  - lia.
Defined.

Lemma recommend_best_distinct_witness :
  ∃ indices,
    recommend games (PyStr "shooters!") (-1)
    = Ok (record_of games (similarities games (PyStr "shooters!")) <$> indices)
    ∧ NoDup indices
    ∧ (∀ i, i ∈ indices → i < 3)
    ∧ StronglySorted (score_ge (similarities games (PyStr "shooters!"))) indices
    ∧ (∀ i j, i ∈ indices → j < 3 → j ∉ indices →
         (score_at (similarities games (PyStr "shooters!")) j
          <= score_at (similarities games (PyStr "shooters!")) i)%Q).
Proof.
  apply (recommend_best_distinct argsort_stable_spec games (PyStr "shooters!") (-1));
    reflexivity.
Defined.

Lemma recommend_first_is_best_witness :
  ∃ first others,
    recommend games (PyStr "shooters!") 2 = Ok (first :: others)
    ∧ ∀ i, i < 3 →
        (score_at (similarities games (PyStr "shooters!")) i
         <= similarity_score first)%Q.
Proof.
  apply (recommend_first_is_best argsort_stable_spec games (PyStr "shooters!") 2).
  - reflexivity.
  - reflexivity.
  - lia.
Defined.

Lemma api_recommend_status_witness :
  App.request_ok (Some Fixtures.greedy_request) = true
  ∧ App.status_code (App.recommend (Some games) (Some Fixtures.greedy_request))
    = 200%Z.
Proof.
  split; [reflexivity|].
  apply (api_recommend_status argsort_stable_spec games (Some Fixtures.greedy_request)).
  intros review _. apply sample_well_formed.
Defined.

Lemma api_recommend_count_witness :
  App.top_n_of (Some Fixtures.greedy_request) = 20%Z
  ∧ ∃ recommendations,
      App.recommend (Some games) (Some Fixtures.greedy_request)
      = App.Recommendations "I love shooters!" (length recommendations)
                            recommendations
      ∧ recommend games (PyStr "I love shooters!") 20 = Ok recommendations
      ∧ length recommendations = 3
      ∧ (1 ≤ Z.of_nat (length recommendations) ≤ MAX_TOP_N)%Z.
Proof.
  split; [reflexivity|].
  pose proof (api_recommend_count argsort_stable_spec games
                (Some Fixtures.greedy_request) "I love shooters!") as Hcount.
  change (Py.is_empty (Py.strip (clean_text (PyStr "I love shooters!"))))
    with false in Hcount.
  change (App.top_n_of (Some Fixtures.greedy_request)) with 20%Z in Hcount.
  apply Hcount; reflexivity.
Defined.

Lemma api_games_pages_partition_witness :
  concat ((λ p, App.page_games (Some games) (Some (Z.of_nat p)) (Some 2%Z))
            <$> seq 1 2)
  = take 4 (get_all_games games)
  ∧ ((length (get_all_games games) ≤ 4)%nat →
     concat ((λ p, App.page_games (Some games) (Some (Z.of_nat p)) (Some 2%Z))
               <$> seq 1 2)
     = get_all_games games).
Proof.
  apply (api_games_pages_partition games 2 2). lia.
Defined.

Lemma calculate_similarity_zero_witness :
  ∃ score,
    calculate_similarity [[0; 0; 0; 0]%Q] [[3 # 5; 4 # 5; 0; 0]%Q] = Ok score
    ∧ (score == 0)%Q.
Proof.
  apply (calculate_similarity_zero [0; 0; 0; 0]%Q [3 # 5; 4 # 5; 0; 0]%Q).
  - reflexivity.
  - cbn. lia.
  - reflexivity.
Defined.

Lemma get_top_recommendations_ranked_witness :
  ∃ ranked,
    Profile.get_top_recommendations games "I love shooters!" 100 = Ok ranked
    ∧ Profile.rank <$> ranked = seq 1 (length ranked)
    ∧ ∀ r1 r2, r1 ∈ ranked → r2 ∈ ranked →
        Profile.rank r1 < Profile.rank r2 →
        (similarity_score (Profile.recommendation r2)
         <= similarity_score (Profile.recommendation r1))%Q.
Proof.
  apply (get_top_recommendations_ranked argsort_stable_spec games
           "I love shooters!" 100); reflexivity.
Defined.
